(** * evaluation/analyse.py: the AB-BA deadlock metrics pipeline

    A shallow embedding of [analyse.py] and of the few pandas and matplotlib
    operations it calls, followed by the properties of the pipeline.

    Conventions of the embedding.
    - A [DataFrame] is the parsed table: the rows in file order, with the
      three columns of the schema.  Its [Status] column holds text labels;
      an empty [Status] cell (NaN in a column of strings) is [None].  A
      Status column whose cells are all numbers is loaded by pandas as
      integers and drawn differently: [plot_status_int64] is [plot_status]
      on such a column.  The two integer columns hold an integer in every
      row: an empty cell there would turn the column into floats.
    - Python [int] and numpy [int64] counts are [Z]; the one Python float of
      the script, the rate, is the rational a binary64 denotes, and the
      division and the multiplication that compute it round to binary64.
    - Console output is the list of the texts of the [print] calls; files
      are a finite map from paths to contents; a raised exception ends the
      computation and is returned in the result.  Saving a figure is
      modelled where the output directory exists, as it does whenever the
      input file was found in it.
    - The descriptive statistics of pandas, their renderings and the CSV
      parser are left abstract ([Env]): the properties hold whatever they
      compute. *)

From Stdlib Require Import QArith Qfield Qabs Qpower Lqa Ascii.
From stdpp Require Import base tactics option list strings gmap pretty sorting.

Local Open Scope Z_scope.

(** ** Python values *)

Module Py.

(** An instance of (a subclass of) [Exception]. *)
Record Exn : Type := mkExn { exn_class : string; exn_msg : string }.

Definition Result (A : Type) : Type := (Exn + A)%type.

Definition ZeroDivisionError : Exn := mkExn "ZeroDivisionError" "division by zero".

(** [s * n] for a string [s]. *)
Fixpoint str_mul (s : string) (n : nat) : string :=
  match n with
  | O => ""
  | S k => s +:+ str_mul s k
  end.

(** [str(n)] for an integer. *)
Definition str (n : Z) : string := pretty n.

(** Nearest integer, ties to even. *)
Definition round_half_even (q : Q) : Z :=
  let n := Qnum q in
  let d := Z.pos (Qden q) in
  let fl := n `div` d in
  let r2 := 2 * (n `mod` d) in
  if decide (r2 < d) then fl
  else if decide (d < r2) then fl + 1
  else if Z.even fl then fl else fl + 1.

(** A Python float is binary64; it is held here as the rational it denotes.
    [binade q] is the exponent [e] with [2^e <= |q| < 2^(e+1)], for a
    non-zero [q]. *)
Definition binade (q : Q) : Z :=
  let e0 := Z.log2 (Z.abs (Qnum q)) - Z.log2 (Z.pos (Qden q)) in
  if Qle_bool (2 ^ e0) (Qabs q) then e0 else e0 - 1.

(** The binary64 nearest to [q]: 53 significant bits, ties to the even
    significand.  The range of exponents is not limited: the quotients and
    products of the script lie between 2^-63 and 100. *)
Definition fl (q : Q) : Q :=
  if decide (Qnum q = 0) then 0%Q
  else
    let ulp := (2 ^ (binade q - 52))%Q in
    Qred (inject_Z (round_half_even (q / ulp)) * ulp).

(** [a / b] on integers: true division, the binary64 nearest to the
    quotient, raising on a zero divisor.  (numpy first converts an [int64]
    operand to binary64, which changes nothing below 2^53.) *)
Definition truediv (a b : Z) : Result Q :=
  if decide (b = 0) then inl ZeroDivisionError
  else inr (fl (inject_Z a / inject_Z b)).

(** [x * y] on floats. *)
Definition float_mul (x y : Q) : Q := fl (x * y).

(** [f"{q:.1f}"]: fixed point with one digit after the point, the decimal
    nearest to the exact value of the float, ties to even. *)
Definition format_1f (q : Q) : string :=
  let t := round_half_even (q * 10)%Q in
  (if decide (t < 0) then "-" else "")
    +:+ str (Z.abs t `div` 10) +:+ "." +:+ str (Z.abs t `mod` 10).

End Py.

(** ** pandas: the Series operations used by the script *)

Module Pandas.

(** A Series of integer values: the (label, value) entries in order. *)
Abbreviation Series A := (list (A * Z)).

Section Series.
Context {A : Type} `{EqDecision A}.

Definition index (s : Series A) : list A := s.*1.
Definition values (s : Series A) : list Z := s.*2.

(** One step of the counting pass: a label seen again has its count
    incremented in place, a new label is appended. *)
Fixpoint incr (k : A) (acc : Series A) : Series A :=
  match acc with
  | [] => [(k, 1)]
  | (k', n) :: acc' =>
      if decide (k = k') then (k', n + 1) :: acc'
      else (k', n) :: incr k acc'
  end.

(** The loop of the counting pass, from the table [acc] built so far;
    missing cells are skipped ([dropna=True]). *)
Definition tally_from (acc : Series A) (col : list (option A)) : Series A :=
  foldl (λ acc o, match o with Some k => incr k acc | None => acc end) acc col.

(** The counting pass over a column; labels come out in first-seen order. *)
Definition tally (col : list (option A)) : Series A := tally_from [] col.

(** Stable insertion by descending value. *)
Fixpoint insert_desc (x : A * Z) (s : Series A) : Series A :=
  match s with
  | [] => [x]
  | y :: s' =>
      if decide (x.2 < y.2) then y :: insert_desc x s'
      else x :: y :: s'
  end.

(** [Series.sort_values(ascending=False)], ties in their given order. *)
Definition sort_values_desc (s : Series A) : Series A := foldr insert_desc [] s.

(** [Series.value_counts()]: sort=True, ascending=False, dropna=True. *)
Definition value_counts (col : list (option A)) : Series A :=
  sort_values_desc (tally col).

(** [Series.get(key, default)] on a Series with unique labels. *)
Fixpoint get (key : A) (default : Z) (s : Series A) : Z :=
  match s with
  | [] => default
  | (k, v) :: s' => if decide (k = key) then v else get key default s'
  end.
End Series.

(** Insertion by ascending integer label. *)
Fixpoint insert_asc (x : Z * Z) (s : Series Z) : Series Z :=
  match s with
  | [] => [x]
  | y :: s' =>
      if decide (y.1 < x.1) then y :: insert_asc x s'
      else x :: y :: s'
  end.

(** [Series.sort_index()] on an integer index. *)
Definition sort_index (s : Series Z) : Series Z := foldr insert_asc [] s.

(** [Index.astype(str)] on an integer index. *)
Definition astype_str (ix : list Z) : list string := Py.str <$> ix.

End Pandas.

(** ** matplotlib: the pyplot operations used by the script *)

Module Plt.

Record Bar : Type := mkBar { bar_x : Z; bar_height : Z }.

Record Text : Type :=
  mkText { text_x : Z; text_y : Z; text_s : string; text_ha : string; text_va : string }.

(** A figure with one axes.  [units] is the category table of the x axis:
    the position of each string plotted on it, which is also where its tick
    label is drawn. *)
Record Figure : Type := mkFigure {
  figsize : Q * Q;
  title : string;
  xlabel : string;
  ylabel : string;
  units : gmap string Z;
  bars : list Bar;
  texts : list Text
}.

Definition new_figure (size : Q * Q) : Figure :=
  mkFigure size "" "" "" ∅ [] [].

(** The figure pyplot creates when none is open. *)
Definition default_figure : Figure := new_figure (32 # 5, 24 # 5)%Q.

(** The category table learns the strings of [data] in order: a string seen
    for the first time takes the next free position. *)
Definition units_update (data : list string) (m : gmap string Z) : gmap string Z :=
  foldl (λ m v, match m !! v with
                | Some _ => m
                | None => <[v := Z.of_nat (size m)]> m
                end) m data.

(** [bar(x, height)] with string [x]: one bar per entry, at the position of
    its category. *)
Definition add_bars (x : list string) (height : list Z) (f : Figure) : Figure :=
  let u := units_update x (units f) in
  mkFigure (figsize f) (title f) (xlabel f) (ylabel f) u
    (bars f ++ zip_with (λ c h, mkBar (u !!! c) h) x height) (texts f).

(** [bar(x, height)] with numbers [x]: each bar stands at its number, and
    the category table is not used. *)
Definition add_bars_at (x : list Z) (height : list Z) (f : Figure) : Figure :=
  mkFigure (figsize f) (title f) (xlabel f) (ylabel f) (units f)
    (bars f ++ zip_with mkBar x height) (texts f).

Definition set_title (s : string) (f : Figure) : Figure :=
  mkFigure (figsize f) s (xlabel f) (ylabel f) (units f) (bars f) (texts f).

Definition set_xlabel (s : string) (f : Figure) : Figure :=
  mkFigure (figsize f) (title f) s (ylabel f) (units f) (bars f) (texts f).

Definition set_ylabel (s : string) (f : Figure) : Figure :=
  mkFigure (figsize f) (title f) (xlabel f) s (units f) (bars f) (texts f).

Definition add_text (t : Text) (f : Figure) : Figure :=
  mkFigure (figsize f) (title f) (xlabel f) (ylabel f) (units f) (bars f) (texts f ++ [t]).

End Plt.

(** ** The process: files, console, open figures *)

Inductive File : Type :=
  | TextFile (contents : string)
  | ImageFile (fig : Plt.Figure).

Record Proc : Type := mkProc {
  fs : gmap string File;
  stdout : list string;
  figs : list Plt.Figure
}.

(** A statement of the script: it changes the process and either raises or
    returns a value. *)
Definition M (A : Type) : Type := Proc → Proc * Py.Result A.

Global Instance M_ret : MRet M := λ A (a : A) (p : Proc), (p, inr a).

Global Instance M_bind : MBind M := λ A B (k : A → M B) (m : M A) (p : Proc),
  match m p with
  | (p', inl e) => (p', inl e)
  | (p', inr a) => k a p'
  end.

Definition raise {A} (e : Py.Exn) : M A := λ p, (p, inl e).

Definition lift {A} (r : Py.Result A) : M A := λ p, (p, r).

(** [try: body  except Exception: handler]. *)
Definition try_except {A} (body : M A) (handler : M A) : M A := λ p,
  match body p with
  | (p', inl _) => handler p'
  | (p', inr a) => (p', inr a)
  end.

(** [for x in l: body x]. *)
Fixpoint for_each {A} (l : list A) (body : A → M unit) : M unit :=
  match l with
  | [] => mret ()
  | x :: l' => body x;; for_each l' body
  end.

Definition print (s : string) : M unit := λ p,
  (mkProc (fs p) (stdout p ++ [s]) (figs p), inr ()).

Definition path_exists (path : string) : M bool := λ p,
  (p, inr (bool_decide (is_Some (fs p !! path)))).

Definition read_file (path : string) : M (option File) := λ p, (p, inr (fs p !! path)).

(** Apply [g] to the current figure (the most recently created one). *)
Definition on_gcf (g : Plt.Figure → Plt.Figure) : M unit := λ p,
  (mkProc (fs p) (stdout p)
     match figs p with
     | [] => [g Plt.default_figure]
     | f :: fs' => g f :: fs'
     end, inr ()).

Definition plt_figure (size : Q * Q) : M unit := λ p,
  (mkProc (fs p) (stdout p) (Plt.new_figure size :: figs p), inr ()).

Definition plt_bar (x : list string) (height : list Z) : M unit :=
  on_gcf (Plt.add_bars x height).

Definition plt_bar_at (x : list Z) (height : list Z) : M unit :=
  on_gcf (Plt.add_bars_at x height).

Definition plt_title (s : string) : M unit := on_gcf (Plt.set_title s).
Definition plt_xlabel (s : string) : M unit := on_gcf (Plt.set_xlabel s).
Definition plt_ylabel (s : string) : M unit := on_gcf (Plt.set_ylabel s).

Definition plt_text (x y : Z) (s ha va : string) : M unit :=
  on_gcf (Plt.add_text (Plt.mkText x y s ha va)).

(** [savefig(path)]: the current figure is written to [path], replacing any
    file there. *)
Definition plt_savefig (path : string) : M unit := λ p,
  let f := match figs p with [] => Plt.default_figure | f :: _ => f end in
  (mkProc (<[path := ImageFile f]> (fs p)) (stdout p)
     match figs p with [] => [f] | _ => figs p end, inr ()).

(** [enumerate(l)]. *)
Definition enumerate {A} (l : list A) : list (Z * A) := imap (λ i x, (Z.of_nat i, x)) l.

(** ** The table and the library functions left abstract *)

(** One row of the metrics file. *)
Record Run : Type := mkRun {
  Status : option string;
  BlockedThreads : Z;
  WaitQueue : Z
}.

Definition DataFrame : Type := list Run.

(** [len(df)]. *)
Definition len (df : DataFrame) : Z := Z.of_nat (length df).

(** What the script takes from its installation and from pandas without the
    properties below depending on how it is computed: where the script
    lives, the CSV parser, and the text renderings of a Series and of the
    table of descriptive statistics. *)
Class Env : Type := {
  PROJECT_ROOT : string;
  read_csv : File → Py.Result DataFrame;
  Series_to_string : Pandas.Series string → string;
  Stats : Type;
  describe : list (string * list Z) → Stats;
  Stats_round : Z → Stats → Stats;
  Stats_str : Stats → string;
  Stats_to_latex : string → Stats → Py.Result string
}.

(** ** os.path *)

Fixpoint ends_with_sep (s : string) : bool :=
  match s with
  | EmptyString => false
  | String c EmptyString => bool_decide (c = "/"%char)
  | String _ s' => ends_with_sep s'
  end.

(** [os.path.join(a, b)] for a relative [b]. *)
Definition path_join (a b : string) : string :=
  if bool_decide (a = "") || ends_with_sep a then a +:+ b else a +:+ "/" +:+ b.

Definition nl : string := String (Ascii.ascii_of_nat 10) EmptyString.

(** ** analyse.py *)

Section Script.
Context `{Env}.

Definition OUTPUT_DIR : string := path_join PROJECT_ROOT "artefacts".
Definition INPUT_FILE : string :=
  path_join (path_join PROJECT_ROOT "artefacts") "abba_metrics.csv".

Definition missing_input_message : string :=
  "Error: Missing " +:+ INPUT_FILE +:+ ". Run collect_metrics.sh first.".

Definition pd_read_csv (path : string) : M DataFrame :=
  f ← read_file path;
  match f with
  | Some file => lift (read_csv file)
  | None => raise (Py.mkExn "FileNotFoundError" path)
  end.

Definition load_data : M (option DataFrame) :=
  found ← path_exists INPUT_FILE;
  if negb found then
    print missing_input_message;;
    mret None
  else
    df ← pd_read_csv INPUT_FILE;
    mret (Some df).

(** The local variables of [summarize]. *)
Record Summary : Type := mkSummary {
  status_counts : Pandas.Series string;
  total : Z;
  deadlocks : Z;
  rate : Q
}.

(** The four assignments that open [summarize]. *)
Definition summarize_vars (df : DataFrame) : M Summary :=
  let status_counts := Pandas.value_counts (Status <$> df) in
  let total := len df in
  let deadlocks := Pandas.get "DEADLOCK" 0 status_counts in
  rate ← (if decide (total ≠ 0)
          then q ← lift (Py.truediv deadlocks total); mret (Py.float_mul q 100)
          else mret 0%Q);
  mret (mkSummary status_counts total deadlocks rate).

Definition summarize (df : DataFrame) : M unit :=
  v ← summarize_vars df;
  print (Py.str_mul "-" 40);;
  print "       AB-BA DEADLOCK METRICS       ";;
  print (Py.str_mul "-" 40);;
  print ("Total Runs:              " +:+ Py.str (total v));;
  print ("Successful Deadlocks:    " +:+ Py.str (deadlocks v));;
  print ("Deadlock Success Rate:   " +:+ Py.format_1f (rate v) +:+ "%");;
  print (nl +:+ "Status Breakdown:");;
  print (Series_to_string (status_counts v));;
  print (Py.str_mul "-" 40).

Definition status_plot_path : string := OUTPUT_DIR +:+ "/status_distribution.png".
Definition blocked_plot_path : string := OUTPUT_DIR +:+ "/blocked_threads.png".

Definition plot_status (df : DataFrame) : M unit :=
  let counts := Pandas.value_counts (Status <$> df) in
  plt_figure (6 # 1, 4 # 1)%Q;;
  plt_bar (Pandas.index counts) (Pandas.values counts);;
  plt_title ("Race Condition Outcome (N=" +:+ Py.str (len df) +:+ ")");;
  plt_ylabel "Count";;
  plt_xlabel "Outcome";;
  for_each (enumerate (Pandas.values counts))
    (λ '(i, v), plt_text i v (Py.str v) "center" "bottom");;
  let out := status_plot_path in
  plt_savefig out;;
  print ("[+] Saved plot: " +:+ out).

(** [plot_status] on a table whose Status column pandas holds as integers,
    which is how [read_csv] loads a column whose cells are all numbers.
    [status] is that column; the index of the counts is then numeric and
    [plt.bar] places the bars at these numbers. *)
Definition plot_status_int64 (status : list Z) : M unit :=
  let counts := Pandas.value_counts (Some <$> status) in
  plt_figure (6 # 1, 4 # 1)%Q;;
  plt_bar_at (Pandas.index counts) (Pandas.values counts);;
  plt_title ("Race Condition Outcome (N=" +:+ Py.str (Z.of_nat (length status)) +:+ ")");;
  plt_ylabel "Count";;
  plt_xlabel "Outcome";;
  for_each (enumerate (Pandas.values counts))
    (λ '(i, v), plt_text i v (Py.str v) "center" "bottom");;
  let out := status_plot_path in
  plt_savefig out;;
  print ("[+] Saved plot: " +:+ out).

Definition plot_blocked (df : DataFrame) : M unit :=
  let counts :=
    Pandas.sort_index (Pandas.value_counts (Some <$> (BlockedThreads <$> df))) in
  plt_figure (6 # 1, 4 # 1)%Q;;
  plt_bar (Pandas.astype_str (Pandas.index counts)) (Pandas.values counts);;
  plt_title "Blocked Threads in D-State per Run";;
  plt_xlabel "Number of Blocked Threads";;
  plt_ylabel "Frequency";;
  let out := blocked_plot_path in
  plt_savefig out;;
  print ("[+] Saved plot: " +:+ out).

Definition could_not_generate : string := "[!] Could not generate LaTeX code.".

Definition print_stats (df : DataFrame) : M unit :=
  print (nl +:+ "[Summary Statistics]");;
  print (Py.str_mul "-" 20);;
  let stats :=
    Stats_round 2 (describe [("BlockedThreads", BlockedThreads <$> df);
                             ("WaitQueue", WaitQueue <$> df)]) in
  print (Stats_str stats);;
  try_except
    (print (nl +:+ "[LaTeX Table Code]");;
     print (Py.str_mul "-" 20);;
     tex ← lift (Stats_to_latex "%.2f" stats);
     print tex)
    (print could_not_generate);;
  print (Py.str_mul "-" 20).

Definition main : M unit :=
  df ← load_data;
  match df with
  | None => mret ()
  | Some df =>
      summarize df;;
      plot_status df;;
      plot_blocked df;;
      print_stats df
  end.

(** One invocation of the script on the files [files]: a fresh process. *)
Definition run (files : gmap string File) : Proc * Py.Result unit :=
  main (mkProc files [] []).
End Script.

(** ** Reference notions the properties are stated with *)

(** Number of cells of a column that hold the label [k]. *)
Definition occurrences {A} `{EqDecision A} (k : A) (col : list (option A)) : Z :=
  Z.of_nat (length (filter (λ o, o = Some k) col)).

(** Number of cells of a column that hold a label at all. *)
Definition present {A} (col : list (option A)) : Z :=
  Z.of_nat (length (filter (λ o : option A, is_Some o) col)).

(** Number of cells of a column that hold no label. *)
Definition missing {A} (col : list (option A)) : Z :=
  Z.of_nat (length (filter (λ o : option A, o = None) col)).

Definition Zsum (l : list Z) : Z := foldr Z.add 0 l.

(** [x] may stand before [y] in a descending order of the values. *)
Definition desc {A} (x y : A * Z) : Prop := y.2 ≤ x.2.

(** [x] may stand before [y] in an ascending order of the labels. *)
Definition asc (x y : Z * Z) : Prop := x.1 ≤ y.1.

(** The text drawn above a bar by the loop of [plot_status]. *)
Definition bar_label (iv : Z * Z) : Plt.Text :=
  Plt.mkText iv.1 iv.2 (Py.str iv.2) "center" "bottom".

(** The figure [plot_status] has built when it saves it. *)
Definition status_figure (df : DataFrame) : Plt.Figure :=
  let counts := Pandas.value_counts (Status <$> df) in
  let u := Plt.units_update (Pandas.index counts) ∅ in
  Plt.mkFigure (6 # 1, 4 # 1)%Q
    ("Race Condition Outcome (N=" +:+ Py.str (len df) +:+ ")") "Outcome" "Count" u
    (zip_with (λ c h, Plt.mkBar (u !!! c) h) (Pandas.index counts) (Pandas.values counts))
    (bar_label <$> enumerate (Pandas.values counts)).

(** The figure [plot_blocked] has built when it saves it. *)
Definition blocked_figure (df : DataFrame) : Plt.Figure :=
  let counts :=
    Pandas.sort_index (Pandas.value_counts (Some <$> (BlockedThreads <$> df))) in
  let x := Pandas.astype_str (Pandas.index counts) in
  let u := Plt.units_update x ∅ in
  Plt.mkFigure (6 # 1, 4 # 1)%Q
    "Blocked Threads in D-State per Run" "Number of Blocked Threads" "Frequency" u
    (zip_with (λ c h, Plt.mkBar (u !!! c) h) x (Pandas.values counts)) [].

(** The state of the local variables of [summarize] after its assignments. *)
Definition rate_of (df : DataFrame) : Q :=
  if decide (len df ≠ 0)
  then Py.float_mul
         (Py.fl (inject_Z (Pandas.get "DEADLOCK" 0 (Pandas.value_counts (Status <$> df)))
                 / inject_Z (len df))) 100
  else 0%Q.

Definition summary_of (df : DataFrame) : Summary :=
  mkSummary (Pandas.value_counts (Status <$> df)) (len df)
    (Pandas.get "DEADLOCK" 0 (Pandas.value_counts (Status <$> df))) (rate_of df).

(** The rate as the script computes it from the deadlock count [d] and the
    total [t]: the quotient rounded to binary64, times 100, rounded again. *)
Definition float_rate (d t : Z) : Q :=
  Py.float_mul (Py.fl (inject_Z d / inject_Z t)) 100.

(** [x] is [y] up to a relative error of 2^-51, which covers two roundings
    to binary64. *)
Definition within_rounding (x y : Q) : Prop :=
  (y * (1 - (1 # 2251799813685248)) <= x)%Q
  ∧ (x <= y * (1 + (1 # 2251799813685248)))%Q.

(** The console as text: every [print] ends its text with a newline. *)
Definition console_text (out : list string) : string :=
  foldr (λ s acc, s +:+ nl +:+ acc) "" out.

(** What a routine added to the console, given the process before and after. *)
Definition printed (before after : Proc) : list string :=
  drop (length (stdout before)) (stdout after).

Section Reference.
Context `{Env}.

(** The texts [summarize] prints, in order. *)
Definition summary_lines (df : DataFrame) : list string :=
  let v := summary_of df in
  [ Py.str_mul "-" 40;
    "       AB-BA DEADLOCK METRICS       ";
    Py.str_mul "-" 40;
    "Total Runs:              " +:+ Py.str (total v);
    "Successful Deadlocks:    " +:+ Py.str (deadlocks v);
    "Deadlock Success Rate:   " +:+ Py.format_1f (rate v) +:+ "%";
    nl +:+ "Status Breakdown:";
    Series_to_string (status_counts v);
    Py.str_mul "-" 40 ].

(** The table [print_stats] computes. *)
Definition stats_of (df : DataFrame) : Stats :=
  Stats_round 2 (describe [("BlockedThreads", BlockedThreads <$> df);
                           ("WaitQueue", WaitQueue <$> df)]).

(** The console table of [print_stats]: header, rule, numeric table. *)
Definition stats_table_lines (df : DataFrame) : list string :=
  [ nl +:+ "[Summary Statistics]"; Py.str_mul "-" 20; Stats_str (stats_of df) ].

(** What [print_stats] prints after the console table. *)
Definition latex_lines (df : DataFrame) : list string :=
  [ nl +:+ "[LaTeX Table Code]"; Py.str_mul "-" 20;
    match Stats_to_latex "%.2f" (stats_of df) with
    | inr tex => tex
    | inl _ => could_not_generate
    end;
    Py.str_mul "-" 20 ].

(** The process after a complete pass of the pipeline over [df]. *)
Definition after_pipeline (df : DataFrame) (p : Proc) : Proc :=
  mkProc
    (<[blocked_plot_path := ImageFile (blocked_figure df)]>
       (<[status_plot_path := ImageFile (status_figure df)]> (fs p)))
    (stdout p ++ summary_lines df
       ++ ["[+] Saved plot: " +:+ status_plot_path]
       ++ ["[+] Saved plot: " +:+ blocked_plot_path]
       ++ stats_table_lines df ++ latex_lines df)
    (blocked_figure df :: status_figure df :: figs p).
End Reference.

(** ** Concrete data for the scenarios *)

(** Rows [("DEADLOCK",2,5), ("TIMEOUT",0,0), ("DEADLOCK",1,3)]. *)
Definition scenario_rows : DataFrame :=
  [ mkRun (Some "DEADLOCK") 2 5; mkRun (Some "TIMEOUT") 0 0; mkRun (Some "DEADLOCK") 1 3 ].

(** A table whose BlockedThreads column is [0,0,1,1,1,3]. *)
Definition scenario_blocked : DataFrame :=
  (λ b, mkRun (Some "DEADLOCK") b 0) <$> [0; 0; 1; 1; 1; 3].

(** A table of 80 rows, 23 of them DEADLOCK. *)
Definition rounding_rows : DataFrame :=
  replicate 23 (mkRun (Some "DEADLOCK") 1 1) ++ replicate 57 (mkRun (Some "TIMEOUT") 0 0).

(** A table with one Run whose Status cell is empty. *)
Definition rows_with_missing_status : DataFrame :=
  [ mkRun (Some "DEADLOCK") 2 5; mkRun None 0 0 ].

(** An installation in which the typeset rendering is unavailable (pandas
    without its template engine) and every text file parses to
    [scenario_rows]. *)
Definition latex_unavailable : Env := {|
  PROJECT_ROOT := "/opt/reentryfs";
  read_csv := λ f,
    match f with
    | TextFile _ => inr scenario_rows
    | ImageFile _ => inl (Py.mkExn "ParserError" "not a delimited text file")
    end;
  Series_to_string := λ s, foldr (λ kv acc, kv.1 +:+ "    " +:+ Py.str kv.2 +:+ nl +:+ acc) "" s;
  Stats := list (string * list Z);
  describe := λ cols, cols;
  Stats_round := λ _ t, t;
  Stats_str := λ t, foldr (λ c acc, c.1 +:+ " " +:+ acc) "" t;
  Stats_to_latex := λ _ _, inl (Py.mkExn "ImportError" "Missing optional dependency Jinja2")
|}.

(** ** Where the script lives *)

Fixpoint has_sep (s : string) : bool :=
  match s with
  | EmptyString => false
  | String c s' => bool_decide (c = "/"%char) || has_sep s'
  end.

Fixpoint all_sep (s : string) : bool :=
  match s with
  | EmptyString => true
  | String c s' => bool_decide (c = "/"%char) && all_sep s'
  end.

(** [p[:p.rfind("/") + 1]]: the text up to and including the last separator. *)
Fixpoint upto_last_sep (s : string) : string :=
  match s with
  | EmptyString => EmptyString
  | String c s' =>
      if has_sep s' then String c (upto_last_sep s')
      else if bool_decide (c = "/"%char) then String c EmptyString
      else EmptyString
  end.

(** [s.rstrip("/")]. *)
Fixpoint rstrip_sep (s : string) : string :=
  match s with
  | EmptyString => EmptyString
  | String c s' =>
      if bool_decide (c = "/"%char) && all_sep s' then EmptyString
      else String c (rstrip_sep s')
  end.

(** [os.path.dirname(p)]. *)
Definition dirname (p : string) : string :=
  let head := upto_last_sep p in
  if negb (bool_decide (head = "")) && negb (all_sep head) then rstrip_sep head
  else head.

(** [PROJECT_ROOT] as the script computes it from [file], the absolute path
    of the script. *)
Definition project_root_of (file : string) : string :=
  let SCRIPT_DIR := dirname file in
  dirname SCRIPT_DIR.

(** * Properties *)

(** ** The counting pass *)

Section SeriesFacts.
Context {A : Type} `{EqDecision A}.
Implicit Types (k : A) (s acc : Pandas.Series A) (col : list (option A)).

Lemma get_incr_same k acc :
  Pandas.get k 0 (Pandas.incr k acc) = Pandas.get k 0 acc + 1.
Proof.
  induction acc as [|[k' n] acc IH]; simpl.
  - by rewrite decide_True.
  - destruct (decide (k = k')) as [->|Hne]; simpl.
    + by rewrite !decide_True.
    + by rewrite !decide_False by done.
Qed.

Lemma get_incr_other k k' d acc :
  k ≠ k' → Pandas.get k d (Pandas.incr k' acc) = Pandas.get k d acc.
Proof.
  intros Hne. induction acc as [|[k0 n] acc IH]; simpl.
  - by rewrite decide_False.
  - destruct (decide (k' = k0)) as [->|Hne']; simpl.
    + by rewrite !decide_False by done.
    + by rewrite IH.
Qed.

Lemma index_incr k k' acc :
  k ∈ Pandas.index (Pandas.incr k' acc) ↔ k = k' ∨ k ∈ Pandas.index acc.
Proof.
  unfold Pandas.index. induction acc as [|[k0 n] acc IH]; simpl.
  - rewrite list_elem_of_singleton. split; [by left|].
    intros [?|Hin]; [done|]. by apply elem_of_nil in Hin.
  - destruct (decide (k' = k0)) as [->|Hne]; simpl;
      rewrite !elem_of_cons; [|rewrite IH]; tauto.
Qed.

Lemma NoDup_index_incr k acc :
  NoDup (Pandas.index acc) → NoDup (Pandas.index (Pandas.incr k acc)).
Proof.
  unfold Pandas.index. induction acc as [|[k0 n] acc IH]; simpl; intros Hnd.
  - apply NoDup_singleton.
  - apply NoDup_cons in Hnd as [Hnotin Hnd].
    destruct (decide (k = k0)) as [->|Hne]; simpl.
    + by apply NoDup_cons.
    + apply NoDup_cons. split; [|by apply IH].
      intros Hin. apply (index_incr k0 k acc) in Hin as [?|?]; [congruence|done].
Qed.

Lemma Zsum_values_incr k acc :
  Zsum (Pandas.values (Pandas.incr k acc)) = Zsum (Pandas.values acc) + 1.
Proof.
  unfold Pandas.values, Zsum. induction acc as [|[k0 n] acc IH]; csimpl; [done|].
  destruct (decide (k = k0)); csimpl in *; lia.
Qed.

Lemma get_tally_from k acc col :
  Pandas.get k 0 (Pandas.tally_from acc col) = Pandas.get k 0 acc + occurrences k col.
Proof.
  unfold occurrences. revert acc. induction col as [|o col IH]; intros acc; simpl.
  - lia.
  - fold (Pandas.tally_from (match o with Some k0 => Pandas.incr k0 acc | None => acc end) col).
    rewrite IH. destruct o as [k0|].
    + destruct (decide (k0 = k)) as [->|Hne].
      * rewrite get_incr_same, filter_cons_True by done. simpl. lia.
      * rewrite get_incr_other, filter_cons_False by congruence. done.
    + rewrite filter_cons_False by done. done.
Qed.

Lemma index_tally_from k acc col :
  k ∈ Pandas.index (Pandas.tally_from acc col) ↔ k ∈ Pandas.index acc ∨ Some k ∈ col.
Proof.
  revert acc. induction col as [|o col IH]; intros acc; simpl.
  - split; [by left|]. intros [?|Hin]; [done|]. by apply elem_of_nil in Hin.
  - fold (Pandas.tally_from (match o with Some k0 => Pandas.incr k0 acc | None => acc end) col).
    rewrite IH, elem_of_cons. destruct o as [k0|].
    + rewrite index_incr. split; [intros [[->|?]|?]|intros [?|[[= ->]|?]]]; tauto.
    + split; [intros [?|?]|intros [?|[?|?]]]; (tauto || done).
Qed.

Lemma NoDup_index_tally_from acc col :
  NoDup (Pandas.index acc) → NoDup (Pandas.index (Pandas.tally_from acc col)).
Proof.
  revert acc. induction col as [|[k0|] col IH]; intros acc Hnd; simpl; auto.
  apply IH. by apply NoDup_index_incr.
Qed.

Lemma Zsum_tally_from acc col :
  Zsum (Pandas.values (Pandas.tally_from acc col)) = Zsum (Pandas.values acc) + present col.
Proof.
  unfold present. revert acc. induction col as [|o col IH]; intros acc; simpl.
  - lia.
  - fold (Pandas.tally_from (match o with Some k0 => Pandas.incr k0 acc | None => acc end) col).
    rewrite IH. destruct o as [k0|].
    + rewrite Zsum_values_incr, filter_cons_True by done. simpl. lia.
    + rewrite filter_cons_False by (by intros [? ?]). done.
Qed.

(** ** Lookup by label *)

Lemma get_not_elem_of k d s : k ∉ Pandas.index s → Pandas.get k d s = d.
Proof.
  unfold Pandas.index. induction s as [|[k0 v0] s IH]; csimpl; intros Hnotin; [done|].
  apply not_elem_of_cons in Hnotin as [Hne Hnotin].
  rewrite decide_False by done. by apply IH.
Qed.

Lemma get_elem_of k v d s :
  NoDup (Pandas.index s) → (k, v) ∈ s → Pandas.get k d s = v.
Proof.
  unfold Pandas.index. induction s as [|[k0 v0] s IH]; csimpl; intros Hnd Hin.
  - by apply elem_of_nil in Hin.
  - apply NoDup_cons in Hnd as [Hnotin Hnd].
    apply elem_of_cons in Hin as [[= -> ->]|Hin].
    + by rewrite decide_True.
    + rewrite decide_False; [by apply IH|].
      intros ->. apply Hnotin. apply list_elem_of_fmap. by exists (k, v).
Qed.

Lemma get_Permutation k d s s' :
  NoDup (Pandas.index s) → s ≡ₚ s' → Pandas.get k d s = Pandas.get k d s'.
Proof.
  intros Hnd Hperm.
  assert (NoDup (Pandas.index s')) as Hnd'.
  { unfold Pandas.index in *. by rewrite <- Hperm. }
  destruct (decide (k ∈ Pandas.index s)) as [Hin|Hnotin].
  - apply list_elem_of_fmap in Hin as [[k0 v] [-> Hin]]. simpl.
    rewrite (get_elem_of k0 v d s) by done.
    symmetry. apply get_elem_of; [done|]. by rewrite <- Hperm.
  - rewrite get_not_elem_of by done.
    symmetry. apply get_not_elem_of. unfold Pandas.index in *. by rewrite <- Hperm.
Qed.

(** ** Sorting by descending count *)

Lemma insert_desc_Permutation x s : Pandas.insert_desc x s ≡ₚ x :: s.
Proof.
  induction s as [|y s IH]; simpl; [done|].
  case_decide; [|done]. rewrite IH. apply Permutation_swap.
Qed.

Lemma sort_values_desc_Permutation s : Pandas.sort_values_desc s ≡ₚ s.
Proof.
  induction s as [|x s IH]; simpl; [done|].
  by rewrite insert_desc_Permutation, IH.
Qed.

Lemma insert_desc_sorted x s :
  StronglySorted desc s → StronglySorted desc (Pandas.insert_desc x s).
Proof.
  induction 1 as [|y s Hs IH Hall]; simpl.
  - repeat constructor.
  - case_decide as Hlt.
    + constructor; [done|].
      rewrite insert_desc_Permutation. constructor; [unfold desc; lia | done].
    + constructor; [by constructor|].
      constructor; [unfold desc; lia|].
      eapply Forall_impl; [exact Hall|]. unfold desc. intros z Hz. lia.
Qed.

Lemma sort_values_desc_sorted s : StronglySorted desc (Pandas.sort_values_desc s).
Proof.
  induction s as [|x s IH]; simpl; [constructor|]. by apply insert_desc_sorted.
Qed.

(** ** [value_counts] *)

Lemma value_counts_Permutation col : Pandas.value_counts col ≡ₚ Pandas.tally_from [] col.
Proof. apply sort_values_desc_Permutation. Qed.

Lemma NoDup_index_value_counts col : NoDup (Pandas.index (Pandas.value_counts col)).
Proof.
  unfold Pandas.index. rewrite value_counts_Permutation.
  apply NoDup_index_tally_from, NoDup_nil_2.
Qed.

Lemma index_value_counts k col :
  k ∈ Pandas.index (Pandas.value_counts col) ↔ Some k ∈ col.
Proof.
  unfold Pandas.index. rewrite value_counts_Permutation.
  rewrite (index_tally_from k [] col). csimpl.
  split; [intros [Hin|?]; [by apply elem_of_nil in Hin|done] | by right].
Qed.

Lemma get_value_counts k col :
  Pandas.get k 0 (Pandas.value_counts col) = occurrences k col.
Proof.
  rewrite <- (get_Permutation k 0 (Pandas.tally_from [] col)).
  - by rewrite get_tally_from.
  - apply NoDup_index_tally_from, NoDup_nil_2.
  - symmetry. apply value_counts_Permutation.
Qed.

Lemma Zsum_Permutation (l l' : list Z) : l ≡ₚ l' → Zsum l = Zsum l'.
Proof. unfold Zsum. induction 1; simpl; lia. Qed.

Lemma Zsum_value_counts col :
  Zsum (Pandas.values (Pandas.value_counts col)) = present col.
Proof.
  rewrite <- (Z.add_0_l (present col)).
  change 0 with (Zsum (Pandas.values (@nil (A * Z)))) at 1.
  rewrite <- Zsum_tally_from. apply Zsum_Permutation.
  unfold Pandas.values. by rewrite value_counts_Permutation.
Qed.

Lemma value_counts_sorted col : StronglySorted desc (Pandas.value_counts col).
Proof. apply sort_values_desc_sorted. Qed.

Lemma value_counts_entry k n col :
  (k, n) ∈ Pandas.value_counts col → n = occurrences k col.
Proof.
  intros Hin. rewrite <- get_value_counts. symmetry.
  apply get_elem_of; [apply NoDup_index_value_counts | done].
Qed.

Lemma tally_from_dropna acc col :
  Pandas.tally_from acc col = Pandas.tally_from acc (filter is_Some col).
Proof.
  revert acc. induction col as [|[k|] col IH]; intros acc; [done|..].
  - rewrite filter_cons_True by done. simpl. apply IH.
  - rewrite filter_cons_False by (by intros [? ?]). simpl. apply IH.
Qed.

Lemma value_counts_dropna col :
  Pandas.value_counts col = Pandas.value_counts (filter is_Some col).
Proof. unfold Pandas.value_counts, Pandas.tally. by rewrite tally_from_dropna. Qed.

Lemma occurrences_nonneg k col : 0 ≤ occurrences k col.
Proof. unfold occurrences. lia. Qed.

Lemma occurrences_pos k col : 0 < occurrences k col ↔ Some k ∈ col.
Proof.
  unfold occurrences. induction col as [|o col IH]; simpl.
  - split; [lia|]. intros Hin. by apply elem_of_nil in Hin.
  - rewrite elem_of_cons. destruct (decide (o = Some k)) as [->|Hne].
    + rewrite filter_cons_True by done. simpl. split; [by left|lia].
    + rewrite filter_cons_False by done. rewrite IH.
      split; [by right|]. intros [?|?]; [congruence|done].
Qed.
End SeriesFacts.

(** ** Sorting by ascending label *)

Lemma insert_asc_Permutation x s : Pandas.insert_asc x s ≡ₚ x :: s.
Proof.
  induction s as [|y s IH]; simpl; [done|].
  case_decide; [|done]. rewrite IH. apply Permutation_swap.
Qed.

Lemma sort_index_Permutation s : Pandas.sort_index s ≡ₚ s.
Proof.
  induction s as [|x s IH]; simpl; [done|].
  by rewrite insert_asc_Permutation, IH.
Qed.

Lemma insert_asc_sorted x s :
  StronglySorted asc s → StronglySorted asc (Pandas.insert_asc x s).
Proof.
  induction 1 as [|y s Hs IH Hall]; simpl.
  - repeat constructor.
  - case_decide as Hlt.
    + constructor; [done|].
      rewrite insert_asc_Permutation. constructor; [unfold asc; lia | done].
    + constructor; [by constructor|].
      constructor; [unfold asc; lia|].
      eapply Forall_impl; [exact Hall|]. unfold asc. intros z Hz. lia.
Qed.

Lemma sort_index_sorted s : StronglySorted asc (Pandas.sort_index s).
Proof.
  induction s as [|x s IH]; simpl; [constructor|]. by apply insert_asc_sorted.
Qed.

(** Distinct labels in ascending order are in strictly ascending order. *)
Lemma asc_NoDup_strict (s : Pandas.Series Z) :
  StronglySorted asc s → NoDup (Pandas.index s) → StronglySorted Z.lt (Pandas.index s).
Proof.
  unfold Pandas.index. induction 1 as [|x s Hs IH Hall]; csimpl; intros Hnd.
  - constructor.
  - apply NoDup_cons in Hnd as [Hnotin Hnd]. constructor; [by apply IH|].
    apply Forall_fmap, Forall_forall. intros y Hy. simpl.
    rewrite Forall_forall in Hall. specialize (Hall y Hy). unfold asc in Hall.
    assert (x.1 ≠ y.1); [|lia].
    intros Heq. apply Hnotin. rewrite Heq. apply list_elem_of_fmap. by exists y.
Qed.

(** ** The category table of an axis *)

Lemma units_update_fresh (xs : list string) (m : gmap string Z) :
  NoDup xs → (∀ x, x ∈ xs → m !! x = None) →
  (∀ i x, xs !! i = Some x →
     Plt.units_update xs m !! x = Some (Z.of_nat (size m + i)))
  ∧ (∀ k, k ∉ xs → Plt.units_update xs m !! k = m !! k)
  ∧ size (Plt.units_update xs m) = (size m + length xs)%nat.
Proof.
  revert m. induction xs as [|x xs IH]; intros m Hnd Hfresh; simpl.
  - split_and!; [intros i x [=] | done | lia].
  - apply NoDup_cons in Hnd as [Hnotin Hnd].
    rewrite (Hfresh x) by apply list_elem_of_here.
    destruct (IH (<[x := Z.of_nat (size m)]> m) Hnd) as (Hpos & Hkeep & Hsize).
    { intros y Hy. rewrite lookup_insert_ne by (intros ->; done).
      apply Hfresh. by apply list_elem_of_further. }
    assert (size (<[x := Z.of_nat (size m)]> m) = S (size m)) as Hsz.
    { apply map_size_insert_None, Hfresh, list_elem_of_here. }
    fold (Plt.units_update xs (<[x := Z.of_nat (size m)]> m)).
    split_and!.
    + intros [|i] y Hy; simpl in Hy.
      * injection Hy as <-. rewrite Hkeep by done.
        rewrite lookup_insert_eq. do 2 f_equal. lia.
      * rewrite (Hpos i y Hy), Hsz. do 2 f_equal. lia.
    + intros k Hk. apply not_elem_of_cons in Hk as [Hne Hk].
      rewrite Hkeep by done. by rewrite lookup_insert_ne.
    + rewrite Hsize, Hsz. simpl. lia.
Qed.

(** On a fresh axis, distinct categories take the positions 0, 1, 2, ... in
    the order they are given. *)
Lemma units_update_position (xs : list string) i x :
  NoDup xs → xs !! i = Some x → Plt.units_update xs ∅ !! x = Some (Z.of_nat i).
Proof.
  intros Hnd Hx.
  destruct (units_update_fresh xs ∅ Hnd) as (Hpos & _ & _); [done|].
  rewrite (Hpos i x Hx). by rewrite map_size_empty.
Qed.

(** The bars of a Series drawn on a fresh axis stand at 0, 1, 2, ... in the
    order of the Series, whatever the tick labels [lab], as long as these
    are distinct. *)
Lemma bars_in_series_order {A} (lab : A → string) (s : list (A * Z)) :
  NoDup (lab <$> Pandas.index s) →
  let u := Plt.units_update (lab <$> Pandas.index s) ∅ in
  zip_with (λ c h, Plt.mkBar (u !!! c) h) (lab <$> Pandas.index s) (Pandas.values s)
  = imap (λ i kv, Plt.mkBar (Z.of_nat i) kv.2) s.
Proof.
  intros Hnd u. apply list_eq. intros i.
  rewrite lookup_zip_with, list_lookup_imap.
  unfold Pandas.index, Pandas.values. rewrite !list_lookup_fmap.
  destruct (s !! i) as [[k v]|] eqn:Hi; [|done]. simpl.
  do 2 f_equal. apply lookup_total_correct.
  apply units_update_position; [done|].
  unfold Pandas.index. by rewrite !list_lookup_fmap, Hi.
Qed.

(** ** What each routine of the script does to the process *)

Section ScriptFacts.
Context `{Env}.

Lemma for_each_bar_label (l : list (Z * Z)) files out f rest :
  for_each l (λ '(i, v), plt_text i v (Py.str v) "center" "bottom")
    (mkProc files out (f :: rest))
  = (mkProc files out
       (Plt.mkFigure (Plt.figsize f) (Plt.title f) (Plt.xlabel f) (Plt.ylabel f)
          (Plt.units f) (Plt.bars f) (Plt.texts f ++ (bar_label <$> l)) :: rest),
     inr ()).
Proof.
  revert f. induction l as [|[i v] l IH]; intros f.
  - simpl. rewrite app_nil_r. by destruct f.
  - simpl. unfold mbind, M_bind, plt_text, on_gcf. simpl.
    rewrite IH. simpl. by rewrite <- app_assoc.
Qed.

Lemma summarize_vars_run df p : summarize_vars df p = (p, inr (summary_of df)).
Proof.
  unfold summarize_vars, summary_of, rate_of, mbind, M_bind, lift, Py.truediv.
  destruct (decide (len df ≠ 0)) as [Hne|Heq]; simpl; [|done].
  by rewrite decide_False.
Qed.

Lemma summarize_run df p :
  summarize df p = (mkProc (fs p) (stdout p ++ summary_lines df) (figs p), inr ()).
Proof.
  unfold summarize, mbind, M_bind. rewrite summarize_vars_run.
  unfold print, summary_lines. simpl. by rewrite <- !app_assoc.
Qed.

Lemma plot_status_run df p :
  plot_status df p
  = (mkProc (<[status_plot_path := ImageFile (status_figure df)]> (fs p))
       (stdout p ++ ["[+] Saved plot: " +:+ status_plot_path])
       (status_figure df :: figs p),
     inr ()).
Proof.
  unfold plot_status, mbind, M_bind, plt_figure, plt_bar, plt_title, plt_ylabel,
    plt_xlabel, on_gcf. simpl.
  rewrite for_each_bar_label. simpl. reflexivity.
Qed.

Lemma plot_blocked_run df p :
  plot_blocked df p
  = (mkProc (<[blocked_plot_path := ImageFile (blocked_figure df)]> (fs p))
       (stdout p ++ ["[+] Saved plot: " +:+ blocked_plot_path])
       (blocked_figure df :: figs p),
     inr ()).
Proof. reflexivity. Qed.

Lemma print_stats_run df p :
  print_stats df p
  = (mkProc (fs p) (stdout p ++ stats_table_lines df ++ latex_lines df) (figs p),
     inr ()).
Proof.
  unfold print_stats, try_except, mbind, M_bind, print, lift, latex_lines,
    stats_table_lines, stats_of. simpl.
  destruct (Stats_to_latex _ _) as [e|tex]; simpl; by rewrite <- !app_assoc.
Qed.

Lemma load_data_run p :
  load_data p
  = match fs p !! INPUT_FILE with
    | None => (mkProc (fs p) (stdout p ++ [missing_input_message]) (figs p), inr None)
    | Some file =>
        match read_csv file with
        | inl e => (p, inl e)
        | inr df => (p, inr (Some df))
        end
    end.
Proof.
  unfold load_data, pd_read_csv, path_exists, read_file, mbind, M_bind, lift. simpl.
  destruct (fs p !! INPUT_FILE) as [file|] eqn:Hfile; simpl.
  - rewrite Hfile. by destruct (read_csv file).
  - done.
Qed.

Lemma main_run p :
  main p
  = match fs p !! INPUT_FILE with
    | None => (mkProc (fs p) (stdout p ++ [missing_input_message]) (figs p), inr ())
    | Some file =>
        match read_csv file with
        | inl e => (p, inl e)
        | inr df => (after_pipeline df p, inr ())
        end
    end.
Proof.
  unfold main. unfold mbind at 1. unfold M_bind at 1. rewrite load_data_run.
  destruct (fs p !! INPUT_FILE) as [file|]; [|done].
  destruct (read_csv file) as [e|df]; [done|].
  unfold mbind, M_bind.
  rewrite summarize_run, plot_status_run, plot_blocked_run, print_stats_run.
  unfold after_pipeline. simpl. by rewrite <- !app_assoc.
Qed.
End ScriptFacts.

(** ** File names *)

Lemma append_inv_head (a b c : string) : a +:+ b = a +:+ c → b = c.
Proof. induction a as [|ch a IH]; simpl; [done|]. intros [= Heq]. by apply IH. Qed.

Lemma ends_with_sep_append (a b : string) :
  b ≠ "" → ends_with_sep (a +:+ b) = ends_with_sep b.
Proof.
  intros Hb. induction a as [|ch a IH]; simpl; [done|].
  destruct (a +:+ b) as [|ch' r] eqn:Hab; [|done].
  destruct a; [destruct b; [done | discriminate] | discriminate].
Qed.

Lemma append_assoc (a b c : string) : (a +:+ b) +:+ c = a +:+ b +:+ c.
Proof.
  induction a as [|ch a IH]; [done|].
  change (String ch ((a +:+ b) +:+ c) = String ch (a +:+ b +:+ c)). by rewrite IH.
Qed.

Lemma path_join_suffix (a b : string) : ∃ a', path_join a b = a' +:+ b.
Proof.
  unfold path_join. destruct (_ || _).
  - by exists a.
  - exists (a +:+ "/"). by rewrite append_assoc.
Qed.

Section Paths.
Context `{Env}.

Lemma INPUT_FILE_in_OUTPUT_DIR : INPUT_FILE = OUTPUT_DIR +:+ "/abba_metrics.csv".
Proof.
  unfold INPUT_FILE. fold OUTPUT_DIR.
  destruct (path_join_suffix PROJECT_ROOT "artefacts") as [a' Ha].
  fold OUTPUT_DIR in Ha. unfold path_join at 1.
  assert (ends_with_sep OUTPUT_DIR = false) as ->.
  { rewrite Ha. by rewrite ends_with_sep_append. }
  rewrite bool_decide_eq_false_2; [done|].
  rewrite Ha. by destruct a'.
Qed.

Lemma INPUT_FILE_not_status_plot : status_plot_path ≠ INPUT_FILE.
Proof.
  rewrite INPUT_FILE_in_OUTPUT_DIR. unfold status_plot_path.
  intros Heq. by apply append_inv_head in Heq.
Qed.

Lemma INPUT_FILE_not_blocked_plot : blocked_plot_path ≠ INPUT_FILE.
Proof.
  rewrite INPUT_FILE_in_OUTPUT_DIR. unfold blocked_plot_path.
  intros Heq. by apply append_inv_head in Heq.
Qed.
End Paths.

(** ** Rounding to binary64 *)

Lemma round_half_even_bounds (q : Q) :
  (inject_Z (Py.round_half_even q) - (1 # 2) <= q)%Q
  ∧ (q <= inject_Z (Py.round_half_even q) + (1 # 2))%Q.
Proof.
  destruct q as [n d]. unfold Py.round_half_even. simpl.
  pose proof (Z.div_mod n (Z.pos d) ltac:(done)) as Hdm.
  pose proof (Z.mod_pos_bound n (Z.pos d) ltac:(done)) as Hr.
  set (f := n `div` Z.pos d) in *. set (r := n `mod` Z.pos d) in *.
  unfold Qle, Qminus, Qplus, Qopp, inject_Z. simpl.
  repeat case_decide; try destruct (Z.even f);
    rewrite ?Pos2Z.inj_mul, ?Z.mul_1_r.
  all: nia.
Qed.

Lemma round_half_even_le (q : Q) (M : Z) :
  (q <= inject_Z M)%Q → Py.round_half_even q ≤ M.
Proof.
  intros Hle. destruct q as [n d]. unfold Py.round_half_even. simpl.
  pose proof (Z.div_mod n (Z.pos d) ltac:(done)) as Hdm.
  pose proof (Z.mod_pos_bound n (Z.pos d) ltac:(done)) as Hr.
  unfold Qle, inject_Z in Hle. simpl in Hle. rewrite Z.mul_1_r in Hle.
  set (f := n `div` Z.pos d) in *. set (r := n `mod` Z.pos d) in *.
  repeat case_decide; try destruct (Z.even f).
  all: nia.
Qed.

Lemma round_half_even_ge (q : Q) (M : Z) :
  (inject_Z M <= q)%Q → M ≤ Py.round_half_even q.
Proof.
  intros Hle. destruct q as [n d]. unfold Py.round_half_even. simpl.
  pose proof (Z.div_mod n (Z.pos d) ltac:(done)) as Hdm.
  pose proof (Z.mod_pos_bound n (Z.pos d) ltac:(done)) as Hr.
  unfold Qle, inject_Z in Hle. simpl in Hle. rewrite Z.mul_1_r in Hle.
  set (f := n `div` Z.pos d) in *. set (r := n `mod` Z.pos d) in *.
  repeat case_decide; try destruct (Z.even f).
  all: nia.
Qed.

Lemma two_pow_pos (k : Z) : (0 < 2 ^ k)%Q.
Proof. by apply Qpower_0_lt. Qed.

Lemma two_pow_nonzero (k : Z) : ¬ (2 ^ k == 0)%Q.
Proof. pose proof (two_pow_pos k). lra. Qed.

Lemma two_pow_inject (k : Z) : 0 ≤ k → (inject_Z (2 ^ k) == 2 ^ k)%Q.
Proof. intros Hk. by rewrite Zpower_Qpower. Qed.

(** The binade of a positive number is not above the number. *)
Lemma binade_lower (q : Q) : (0 < q)%Q → (2 ^ Py.binade q <= q)%Q.
Proof.
  intros Hpos. unfold Py.binade.
  rewrite (Qabs_pos q) by lra.
  destruct (Qle_bool _ _) eqn:Hb; [by apply Qle_bool_imp_le|]. clear Hb.
  destruct q as [n d]. cbn [Qnum Qden].
  assert (0 < n) as Hn by (unfold Qlt in Hpos; simpl in Hpos; lia).
  rewrite (Z.abs_eq n) by lia.
  pose proof (Z.log2_spec n Hn) as [Hlo _].
  pose proof (Z.log2_spec (Z.pos d) ltac:(done)) as [_ Hhi].
  pose proof (Z.log2_nonneg n) as Hln.
  pose proof (Z.log2_nonneg (Z.pos d)) as Hld.
  set (ln := Z.log2 n) in *. set (ld := Z.log2 (Z.pos d)) in *.
  replace (ln - ld - 1) with (ln - (ld + 1)) by lia.
  rewrite Qpower_minus by done.
  rewrite <- (two_pow_inject ln), <- (two_pow_inject (ld + 1)) by lia.
  rewrite (Qmake_Qdiv n d).
  assert (0 < inject_Z (2 ^ (ld + 1)))%Q as Hp1.
  { rewrite two_pow_inject by lia. apply two_pow_pos. }
  assert (0 < inject_Z (Z.pos d))%Q as Hp2 by done.
  apply Qle_shift_div_l; [done|].
  unfold Qdiv. rewrite <- Qmult_assoc, (Qmult_comm (/ _)), Qmult_assoc.
  apply Qle_shift_div_r; [done|].
  rewrite <- !inject_Z_mult, <- Zle_Qle.
  unfold Z.succ in Hhi. nia.
Qed.

Lemma binade_lt (q : Q) (k : Z) : (0 < q)%Q → (q < 2 ^ k)%Q → Py.binade q < k.
Proof.
  intros Hpos Hlt. apply (Qpower_lt_compat_l_inv 2); [|done].
  pose proof (binade_lower q Hpos). lra.
Qed.

Lemma binade_le (q : Q) (k : Z) : (0 < q)%Q → (q <= 2 ^ k)%Q → Py.binade q ≤ k.
Proof.
  intros Hpos Hle. apply (Qpower_le_compat_l_inv 2); [|done].
  pose proof (binade_lower q Hpos). lra.
Qed.

(** [fl] as a multiple of the unit in the last place. *)
Lemma fl_positive_eq (q : Q) :
  (0 < q)%Q →
  (Py.fl q == inject_Z (Py.round_half_even (q / 2 ^ (Py.binade q - 52)))
              * 2 ^ (Py.binade q - 52))%Q.
Proof.
  intros Hpos. unfold Py.fl.
  rewrite decide_False; [apply Qred_correct|].
  unfold Qlt in Hpos. simpl in Hpos. lia.
Qed.

Lemma fl_zero (q : Q) : (q == 0)%Q → Py.fl q = 0%Q.
Proof.
  intros Hz. unfold Py.fl. rewrite decide_True; [done|].
  unfold Qeq in Hz. simpl in Hz. lia.
Qed.

(** Rounding moves a positive number by at most half a unit in the last
    place. *)
Lemma fl_half_ulp (q : Q) :
  (0 < q)%Q →
  (q - 2 ^ (Py.binade q - 53) <= Py.fl q)%Q ∧ (Py.fl q <= q + 2 ^ (Py.binade q - 53))%Q.
Proof.
  intros Hpos. rewrite (fl_positive_eq q Hpos).
  set (u := (2 ^ (Py.binade q - 52))%Q).
  assert (0 < u)%Q as Hu by apply two_pow_pos.
  assert (2 ^ (Py.binade q - 53) == u * (1 # 2))%Q as ->.
  { unfold u. replace (Py.binade q - 53) with ((Py.binade q - 52) + -1) by lia.
    by rewrite Qpower_plus. }
  destruct (round_half_even_bounds (q / u)) as [Hlo Hhi].
  set (m := inject_Z (Py.round_half_even (q / u))) in *.
  assert (q == (q / u) * u)%Q as Hq by (field; lra).
  set (x := (q / u)%Q) in *. clearbody m x u.
  split.
  - apply (Qmult_le_compat_r _ _ u) in Hhi; [|lra]. lra.
  - apply (Qmult_le_compat_r _ _ u) in Hlo; [|lra]. lra.
Qed.

(** The relative error of rounding is at most 2^-53. *)
Lemma fl_relative_error (q : Q) :
  (0 < q)%Q →
  (q * (1 - (1 # 9007199254740992)) <= Py.fl q)%Q
  ∧ (Py.fl q <= q * (1 + (1 # 9007199254740992)))%Q.
Proof.
  intros Hpos. destruct (fl_half_ulp q Hpos) as [Hlo Hhi].
  pose proof (binade_lower q Hpos) as Hb.
  assert (2 ^ (Py.binade q - 53) == 2 ^ Py.binade q * (1 # 9007199254740992))%Q as Heq.
  { replace (Py.binade q - 53) with (Py.binade q + -53) by lia.
    by rewrite Qpower_plus. }
  rewrite Heq in Hlo, Hhi.
  assert (2 ^ Py.binade q * (1 # 9007199254740992) <= q * (1 # 9007199254740992))%Q.
  { apply Qmult_le_compat_r; [done|done]. }
  split; lra.
Qed.

Lemma fl_nonneg (q : Q) : (0 <= q)%Q → (0 <= Py.fl q)%Q.
Proof.
  intros Hq. destruct (Qlt_le_dec 0 q) as [Hpos|Hle].
  - destruct (fl_relative_error q Hpos) as [Hlo _].
    assert (0 <= q * (1 - (1 # 9007199254740992)))%Q; [|lra].
    apply Qmult_le_0_compat; [lra|done].
  - rewrite fl_zero; [done|lra].
Qed.

Lemma fl_pos (q : Q) : (0 < q)%Q → (0 < Py.fl q)%Q.
Proof.
  intros Hpos. destruct (fl_relative_error q Hpos) as [Hlo _].
  assert (0 < q * (1 - (1 # 9007199254740992)))%Q; [|lra].
  apply Qmult_lt_0_compat; [lra|done].
Qed.

(** A multiple [m * 2^j] of a power of two not below the unit in the last
    place of [q] is a bound of [fl q] as soon as it is one of [q]. *)
Lemma fl_le_grid (q : Q) (m j : Z) :
  (0 < q)%Q → Py.binade q - 52 ≤ j → (q <= inject_Z m * 2 ^ j)%Q →
  (Py.fl q <= inject_Z m * 2 ^ j)%Q.
Proof.
  intros Hpos Hj Hle. rewrite (fl_positive_eq q Hpos).
  set (e := Py.binade q - 52) in *.
  assert (0 < 2 ^ e)%Q as Hu by apply two_pow_pos.
  assert (2 ^ j == inject_Z (2 ^ (j - e)) * 2 ^ e)%Q as Hgrid.
  { rewrite two_pow_inject by lia. rewrite <- Qpower_plus by done.
    by replace (j - e + e) with j by lia. }
  rewrite Hgrid in Hle |- *. rewrite Qmult_assoc in Hle |- *.
  rewrite <- inject_Z_mult in Hle |- *.
  apply Qmult_le_compat_r; [|lra].
  rewrite <- Zle_Qle. apply round_half_even_le.
  apply Qle_shift_div_r; [done|done].
Qed.

Lemma fl_ge_grid (q : Q) (m j : Z) :
  (0 < q)%Q → Py.binade q - 52 ≤ j → (inject_Z m * 2 ^ j <= q)%Q →
  (inject_Z m * 2 ^ j <= Py.fl q)%Q.
Proof.
  intros Hpos Hj Hle. rewrite (fl_positive_eq q Hpos).
  set (e := Py.binade q - 52) in *.
  assert (0 < 2 ^ e)%Q as Hu by apply two_pow_pos.
  assert (2 ^ j == inject_Z (2 ^ (j - e)) * 2 ^ e)%Q as Hgrid.
  { rewrite two_pow_inject by lia. rewrite <- Qpower_plus by done.
    by replace (j - e + e) with j by lia. }
  rewrite Hgrid in Hle |- *. rewrite Qmult_assoc in Hle |- *.
  rewrite <- inject_Z_mult in Hle |- *.
  apply Qmult_le_compat_r; [|lra].
  rewrite <- Zle_Qle. apply round_half_even_ge.
  apply Qle_shift_div_l; [done|done].
Qed.

Lemma inject_Z_pos (t : Z) : 0 < t → (0 < inject_Z t)%Q.
Proof. intros Ht. unfold Qlt. simpl. lia. Qed.

Lemma quotient_pos (d t : Z) : 0 < d → 0 < t → (0 < inject_Z d / inject_Z t)%Q.
Proof.
  intros Hd Ht. apply Qlt_shift_div_l.
  - by apply inject_Z_pos.
  - rewrite Qmult_0_l. by apply inject_Z_pos.
Qed.

Lemma quotient_le_1 (d t : Z) : d ≤ t → 0 < t → (inject_Z d / inject_Z t <= 1)%Q.
Proof.
  intros Hd Ht. apply Qle_shift_div_r.
  - by apply inject_Z_pos.
  - rewrite Qmult_1_l. by rewrite <- Zle_Qle.
Qed.

Lemma float_rate_zero (t : Z) : float_rate 0 t = 0%Q.
Proof.
  unfold float_rate, Py.float_mul.
  rewrite (fl_zero (inject_Z 0 / inject_Z t)) by (unfold Qdiv; apply Qmult_0_l).
  by apply fl_zero.
Qed.

Lemma float_quotient_le_1 (d t : Z) :
  0 < d ≤ t → (0 < Py.fl (inject_Z d / inject_Z t))%Q
              ∧ (Py.fl (inject_Z d / inject_Z t) <= 1)%Q.
Proof.
  intros [Hd Hle].
  pose proof (quotient_pos d t Hd ltac:(lia)) as Hpos.
  pose proof (quotient_le_1 d t Hle ltac:(lia)) as Hle1.
  split; [by apply fl_pos|].
  pose proof (fl_le_grid _ 1 0 Hpos) as Hgrid. simpl in Hgrid.
  assert (inject_Z 1 * 1 == 1)%Q as Hc by reflexivity.
  pose proof (binade_le _ 0 Hpos) as Hb. simpl in Hb. specialize (Hb Hle1).
  assert (Py.fl (inject_Z d / inject_Z t) <= inject_Z 1 * 1)%Q as Hfl
    by (apply Hgrid; [lia|rewrite Hc; lra]).
  by rewrite Hc in Hfl.
Qed.

(** The rate is 100 * d / t up to the two roundings. *)
Lemma float_rate_close (d t : Z) :
  0 ≤ d → 0 < t → within_rounding (float_rate d t) (100 * inject_Z d / inject_Z t).
Proof.
  intros Hd Ht. unfold within_rounding.
  destruct (decide (d = 0)) as [->|Hne].
  - rewrite float_rate_zero.
    assert (100 * inject_Z 0 / inject_Z t == 0)%Q as ->; [|split; lra].
    unfold Qdiv. rewrite Qmult_0_r. apply Qmult_0_l.
  - pose proof (quotient_pos d t ltac:(lia) Ht) as Hpos.
    destruct (fl_relative_error _ Hpos) as [Hlo Hhi].
    pose proof (fl_pos _ Hpos) as Hpos1.
    unfold float_rate, Py.float_mul.
    set (x := (inject_Z d / inject_Z t)%Q) in *.
    set (r := Py.fl x) in *.
    assert (0 < r * 100)%Q as Hpos2 by lra.
    destruct (fl_relative_error _ Hpos2) as [Hlo2 Hhi2].
    set (y := Py.fl (r * 100)) in *.
    assert (100 * inject_Z d / inject_Z t == 100 * x)%Q as ->.
    { unfold x. field. intros Hz. unfold Qeq in Hz. simpl in Hz. lia. }
    clearbody y r x. split; lra.
Qed.

Lemma float_rate_range (d t : Z) :
  0 ≤ d ≤ t → 0 < t → (0 <= float_rate d t)%Q ∧ (float_rate d t <= 100)%Q.
Proof.
  intros [Hd Hle] Ht.
  destruct (decide (d = 0)) as [->|Hne]; [by rewrite float_rate_zero|].
  destruct (float_quotient_le_1 d t ltac:(lia)) as [Hpos Hle1].
  unfold float_rate, Py.float_mul.
  set (r := Py.fl (inject_Z d / inject_Z t)) in *.
  assert (0 < r * 100)%Q as Hpos2 by lra.
  split; [apply fl_nonneg; lra|].
  pose proof (fl_le_grid _ 25 2 Hpos2) as Hgrid. simpl in Hgrid.
  assert (inject_Z 25 * (2 * 2) == 100)%Q as Hc by reflexivity.
  assert (r * 100 < 2 ^ 7)%Q as Hlt by (simpl; lra).
  pose proof (binade_lt _ 7 Hpos2 Hlt).
  assert (Py.fl (r * 100) <= inject_Z 25 * (2 * 2))%Q as Hb
    by (apply Hgrid; [lia|rewrite Hc; lra]).
  by rewrite Hc in Hb.
Qed.

Lemma float_rate_full (t : Z) : 0 < t → (float_rate t t == 100)%Q.
Proof.
  intros Ht.
  pose proof (quotient_pos t t Ht Ht) as Hpos.
  assert (inject_Z t / inject_Z t == 1)%Q as Hone.
  { field. intros Hz. unfold Qeq in Hz. simpl in Hz. lia. }
  destruct (float_quotient_le_1 t t ltac:(lia)) as [Hpos1 Hle1].
  assert (1 <= Py.fl (inject_Z t / inject_Z t))%Q as Hge1.
  { pose proof (fl_ge_grid _ 1 0 Hpos) as Hgrid. simpl in Hgrid.
    assert (inject_Z 1 * 1 == 1)%Q as Hc by reflexivity.
    assert (inject_Z t / inject_Z t <= 2 ^ 0)%Q as Hle by (simpl; lra).
    pose proof (binade_le _ 0 Hpos Hle).
    assert (inject_Z 1 * 1 <= Py.fl (inject_Z t / inject_Z t))%Q as Hfl
      by (apply Hgrid; [lia|rewrite Hc; lra]).
    by rewrite Hc in Hfl. }
  unfold float_rate, Py.float_mul.
  set (r := Py.fl (inject_Z t / inject_Z t)) in *.
  assert (0 < r * 100)%Q as Hpos2 by lra.
  assert (r * 100 < 2 ^ 7)%Q as Hlt by (simpl; lra).
  pose proof (binade_lt _ 7 Hpos2 Hlt) as Hb.
  assert (inject_Z 25 * (2 * 2) == 100)%Q as Hc by reflexivity.
  pose proof (fl_le_grid _ 25 2 Hpos2) as Hup. simpl in Hup.
  pose proof (fl_ge_grid _ 25 2 Hpos2) as Hdown. simpl in Hdown.
  assert (Py.fl (r * 100) <= inject_Z 25 * (2 * 2))%Q as Hle
    by (apply Hup; [lia|rewrite Hc; lra]).
  assert (inject_Z 25 * (2 * 2) <= Py.fl (r * 100))%Q as Hge
    by (apply Hdown; [lia|rewrite Hc; lra]).
  rewrite Hc in Hle, Hge. by apply Qle_antisym.
Qed.

Lemma float_rate_partial (d t : Z) :
  0 ≤ d < t → t < 2 ^ 53 → (float_rate d t < 100)%Q.
Proof.
  intros [Hd Hlt] Ht.
  destruct (decide (d = 0)) as [->|Hne]; [by rewrite float_rate_zero|].
  pose proof (quotient_pos d t ltac:(lia) ltac:(lia)) as Hpos.
  assert (inject_Z d / inject_Z t <= inject_Z (2 ^ 53 - 1) * 2 ^ (-53))%Q as Hq.
  { apply Qle_shift_div_r; [apply inject_Z_pos; lia|].
    change (2 ^ (-53))%Q with (1 # 9007199254740992)%Q.
    assert (inject_Z (d + 1) <= inject_Z t)%Q as Hd1 by (rewrite <- Zle_Qle; lia).
    assert (inject_Z t <= inject_Z (2 ^ 53 - 1))%Q as Ht1 by (rewrite <- Zle_Qle; lia).
    rewrite inject_Z_plus in Hd1.
    change (inject_Z (2 ^ 53 - 1)) with (9007199254740991 : Q) in *.
    change (inject_Z 1) with 1%Q in Hd1.
    assert (0 < inject_Z t)%Q by (apply inject_Z_pos; lia).
    set (T := inject_Z t) in *. set (D := inject_Z d) in *. clearbody T D.
    assert (9007199254740991 * (1 # 9007199254740992) * T
            == T - T * (1 # 9007199254740992))%Q as -> by ring.
    assert (T * (1 # 9007199254740992) <= 9007199254740991 * (1 # 9007199254740992))%Q.
    { apply Qmult_le_compat_r; [done|done]. }
    lra. }
  assert (inject_Z d / inject_Z t < 2 ^ 0)%Q as Hlt1.
  { change (2 ^ 0)%Q with 1%Q.
    apply Qlt_shift_div_r; [apply inject_Z_pos; lia|].
    rewrite Qmult_1_l. by rewrite <- Zlt_Qlt. }
  pose proof (binade_lt _ 0 Hpos Hlt1) as Hb.
  pose proof (fl_le_grid _ _ (-53) Hpos ltac:(lia) Hq) as Hr.
  pose proof (fl_pos _ Hpos) as Hrpos.
  unfold float_rate, Py.float_mul.
  set (r := Py.fl (inject_Z d / inject_Z t)) in *.
  change (inject_Z (2 ^ 53 - 1) * 2 ^ (-53))%Q
    with (9007199254740991 * (1 # 9007199254740992))%Q in Hr.
  assert (0 < r * 100)%Q as Hpos2 by lra.
  assert (r * 100 < 2 ^ 7)%Q as Hlt7 by (simpl; lra).
  pose proof (binade_lt _ 7 Hpos2 Hlt7) as Hb7.
  destruct (fl_half_ulp _ Hpos2) as [_ Hup].
  assert (2 ^ (Py.binade (r * 100) - 53) <= 2 ^ (-47))%Q as Hulp.
  { apply Qpower_le_compat_l; [lia|done]. }
  change (2 ^ (-47))%Q with (1 # 140737488355328)%Q in Hulp.
  set (y := Py.fl (r * 100)) in *. set (h := (2 ^ (Py.binade (r * 100) - 53))%Q) in *.
  clearbody y h r. lra.
Qed.

Lemma float_rate_pos (d t : Z) : 0 < d → 0 < t → (0 < float_rate d t)%Q.
Proof.
  intros Hd Ht. unfold float_rate, Py.float_mul.
  pose proof (fl_pos _ (quotient_pos d t Hd Ht)) as Hpos.
  apply fl_pos. lra.
Qed.

(** * The Summarizer *)

Lemma inject_Z_nonzero (t : Z) : t ≠ 0 → ¬ (inject_Z t == 0)%Q.
Proof. intros Hne. unfold Qeq. simpl. lia. Qed.

Lemma present_all (col : list (option string)) :
  Forall is_Some col → present col = Z.of_nat (length col).
Proof.
  unfold present. induction 1 as [|o col Ho Hall IH]; simpl; [done|].
  rewrite filter_cons_True by done. simpl. lia.
Qed.

Lemma present_missing (col : list (option string)) :
  present col + missing col = Z.of_nat (length col).
Proof.
  unfold present, missing. induction col as [|o col IH]; [done|].
  destruct o as [k|].
  - rewrite filter_cons_True, filter_cons_False by done. simpl in *. lia.
  - rewrite filter_cons_False by (by intros [? ?]).
    rewrite filter_cons_True by done. simpl in *. lia.
Qed.

(** C1, counterexample.  On a table of 80 rows, 23 of them DEADLOCK, the
    rate of [summarize] is not 100 * 23 / 80 = 28.75: the quotient 23 / 80
    is rounded to binary64 before it is multiplied by 100, the product is
    28.749999999999996..., and the report shows 28.7 where 28.75 would be
    shown as 28.8. *)
Lemma summarize_rate_counterexample :
  ∃ v, summarize_vars rounding_rows (mkProc ∅ [] []) = (mkProc ∅ [] [], inr v)
     ∧ total v = 80 ∧ deadlocks v = 23
     ∧ rate v = (8092405580431359 # 281474976710656)%Q
     ∧ ¬ (rate v == 100 * inject_Z (deadlocks v) / inject_Z (total v))%Q
     ∧ Py.format_1f (rate v) = "28.7"
     ∧ Py.format_1f (100 * inject_Z 23 / inject_Z 80) = "28.8".
Proof.
  exists (summary_of rounding_rows). rewrite summarize_vars_run.
  assert (rate (summary_of rounding_rows) = (8092405580431359 # 281474976710656)%Q)
    as Hrate by (vm_compute; reflexivity).
  split_and!; [done|done|done|done| | |].
  - rewrite Hrate. vm_compute. discriminate.
  - rewrite Hrate. vm_compute. reflexivity.
  - vm_compute. reflexivity.
Qed.

(** C1, amended.  Whatever the table, the assignments of [summarize] end
    without an exception, in particular without a division by zero; [total]
    is the number of rows and the deadlock count the number of DEADLOCK
    cells.  On an empty table the rate is exactly 0.  Otherwise the rate is
    the binary64 product by 100 of the binary64 quotient of the deadlock
    count by the total, which is 100 * deadlocks / total up to a relative
    error of 2^-51.  The whole of [summarize] returns normally as well. *)
Theorem summarize_rate_no_division_fault `{Env} (df : DataFrame) (p : Proc) :
  ∃ v, summarize_vars df p = (p, inr v)
     ∧ total v = Z.of_nat (length df)
     ∧ deadlocks v = occurrences "DEADLOCK" (Status <$> df)
     ∧ (if decide (df = []) then rate v = 0%Q
        else rate v = float_rate (deadlocks v) (total v)
             ∧ within_rounding (rate v)
                 (100 * inject_Z (occurrences "DEADLOCK" (Status <$> df))
                  / inject_Z (Z.of_nat (length df))))
     ∧ (summarize df p).2 = inr ().
Proof.
  exists (summary_of df). rewrite summarize_vars_run, summarize_run.
  split_and!; [reflexivity|reflexivity|apply get_value_counts| |reflexivity].
  simpl. unfold rate_of. rewrite get_value_counts.
  destruct df as [|r df]; [reflexivity|].
  set (rows := r :: df).
  assert (len rows ≠ 0) as Hne by done.
  rewrite (decide_True _ _ Hne). rewrite decide_False by done.
  split; [done|].
  apply (float_rate_close _ (len rows)); [apply occurrences_nonneg|].
  unfold len. simpl. lia.
Qed.

(** C2. The deadlock count of [summarize] is the number of cells of the
    Status column that hold exactly the label DEADLOCK, hence 0 when no cell
    does; and on the rows (DEADLOCK,2,5), (TIMEOUT,0,0), (DEADLOCK,1,3) the
    report shows a total of 3, 2 deadlocks and the rate 66.7%, with the
    breakdown DEADLOCK 2, TIMEOUT 1; the rate is the float
    66.66666666666666.... *)
Theorem summarize_deadlock_count `{Env} (df : DataFrame) (p : Proc) :
  (∃ v, summarize_vars df p = (p, inr v)
      ∧ deadlocks v = occurrences "DEADLOCK" (Status <$> df)
      ∧ (Some "DEADLOCK" ∉ Status <$> df → deadlocks v = 0))
  ∧ summarize_vars scenario_rows p
    = (p, inr (mkSummary [("DEADLOCK", 2); ("TIMEOUT", 1)] 3 2
               (2345624805922133 # 35184372088832)))
  ∧ Py.format_1f (2345624805922133 # 35184372088832) +:+ "%" = "66.7%"
  ∧ summarize scenario_rows p
    = (mkProc (fs p)
         (stdout p ++
            [ "----------------------------------------";
              "       AB-BA DEADLOCK METRICS       ";
              "----------------------------------------";
              "Total Runs:              3";
              "Successful Deadlocks:    2";
              "Deadlock Success Rate:   66.7%";
              nl +:+ "Status Breakdown:";
              Series_to_string [("DEADLOCK", 2); ("TIMEOUT", 1)];
              "----------------------------------------" ])
         (figs p),
       inr ()).
Proof.
  split_and!.
  - exists (summary_of df). rewrite summarize_vars_run. split_and!; [done|..].
    + apply get_value_counts.
    + intros Habsent. simpl. rewrite get_value_counts.
      destruct (decide (0 < occurrences "DEADLOCK" (Status <$> df))) as [Hpos|Hnpos].
      * by apply occurrences_pos in Hpos.
      * pose proof (occurrences_nonneg "DEADLOCK" (Status <$> df)). lia.
  - rewrite summarize_vars_run. do 2 f_equal.
  - vm_compute. reflexivity.
  - rewrite summarize_run. do 2 f_equal.
Qed.

(** With one Run whose Status cell is empty, the counts of [summarize] add
    up to 1 while [total] is 2. *)
Lemma status_counts_sum_counterexample :
  ∃ v, summarize_vars rows_with_missing_status (mkProc ∅ [] []) = (mkProc ∅ [] [], inr v)
     ∧ Zsum (Pandas.values (status_counts v)) = 1
     ∧ total v = 2
     ∧ Zsum (Pandas.values (status_counts v)) ≠ total v.
Proof.
  exists (summary_of rows_with_missing_status). rewrite summarize_vars_run.
  split_and!; [done|done|done|]. vm_compute. discriminate.
Qed.

(** On any table, the counts of [summarize] add up to the number of Runs
    whose Status cell holds a label: [total] minus the number of Runs with an
    empty Status cell. *)
Lemma status_counts_sum (df : DataFrame) (p : Proc) :
  ∃ v, summarize_vars df p = (p, inr v)
     ∧ Zsum (Pandas.values (status_counts v)) = total v - missing (Status <$> df)
     ∧ (Forall (λ r, is_Some (Status r)) df →
        Zsum (Pandas.values (status_counts v)) = total v).
Proof.
  exists (summary_of df). rewrite summarize_vars_run. simpl.
  rewrite Zsum_value_counts. split_and!; [done|..].
  - pose proof (present_missing (Status <$> df)) as Hsplit.
    rewrite length_fmap in Hsplit. unfold len. lia.
  - intros Hall. rewrite present_all by (by apply Forall_fmap).
    by rewrite length_fmap.
Qed.

(** C3. On every Dataset, that is every table in which each Run has a Status
    value, the counts of [summarize] add up to [total], which is the number
    of rows. *)
Theorem status_counts_sum_is_total (df : DataFrame) (p : Proc) :
  Forall (λ r, is_Some (Status r)) df →
  ∃ v, summarize_vars df p = (p, inr v)
     ∧ total v = Z.of_nat (length df)
     ∧ Zsum (Pandas.values (status_counts v)) = Z.of_nat (length df)
     ∧ Zsum (Pandas.values (status_counts v)) = total v.
Proof.
  intros Hall. exists (summary_of df). rewrite summarize_vars_run. simpl.
  rewrite Zsum_value_counts, present_all by (by apply Forall_fmap).
  by rewrite length_fmap.
Qed.

Lemma status_counts_sum_is_total_witness :
  Forall (λ r, is_Some (Status r)) scenario_rows
  ∧ ∃ v, summarize_vars scenario_rows (mkProc ∅ [] []) = (mkProc ∅ [] [], inr v)
       ∧ Zsum (Pandas.values (status_counts v)) = 3.
Proof.
  assert (Forall (λ r, is_Some (Status r)) scenario_rows) as Hall
    by (repeat constructor; by eexists).
  split; [exact Hall|].
  destruct (status_counts_sum_is_total scenario_rows (mkProc ∅ [] []) Hall)
    as (v & Hv & _ & Hsum & _).
  by exists v.
Defined.

(** C10. The rate of [summarize] divides by the number of rows of the table.
    Rows with an empty Status cell are counted in that denominator although
    they add no entry to the counts: the counts are those of the Status
    column without its empty cells.  With one DEADLOCK row and one row
    without Status the rate is 50, not the 100 that dividing by the sum of
    the counts would give. *)
Theorem rate_denominator_is_row_count (df : DataFrame) (p : Proc) :
  (∃ v, summarize_vars df p = (p, inr v)
      ∧ total v = Z.of_nat (length df)
      ∧ status_counts v = Pandas.value_counts (filter is_Some (Status <$> df))
      ∧ (if decide (df = []) then rate v = 0%Q
         else rate v = float_rate (deadlocks v) (Z.of_nat (length df))
              ∧ within_rounding (rate v)
                  (100 * inject_Z (deadlocks v) / inject_Z (Z.of_nat (length df)))))
  ∧ (∃ v, summarize_vars rows_with_missing_status p = (p, inr v)
        ∧ total v = 2 ∧ deadlocks v = 1
        ∧ Zsum (Pandas.values (status_counts v)) = 1
        ∧ (rate v == 50)%Q
        ∧ ¬ (rate v == 100 * inject_Z (deadlocks v)
                       / inject_Z (Zsum (Pandas.values (status_counts v))))%Q
        ∧ ¬ within_rounding (rate v)
              (100 * inject_Z (deadlocks v)
               / inject_Z (Zsum (Pandas.values (status_counts v))))).
Proof.
  split.
  - exists (summary_of df). rewrite summarize_vars_run. simpl.
    split_and!; [done|done|apply value_counts_dropna|].
    unfold rate_of. rewrite get_value_counts.
    destruct df as [|r df]; [reflexivity|].
    set (rows := r :: df).
    assert (len rows ≠ 0) as Hne by done.
    rewrite (decide_True _ _ Hne). rewrite decide_False by done.
    split; [done|].
    apply (float_rate_close _ (len rows)); [apply occurrences_nonneg|].
    unfold len. simpl. lia.
  - exists (summary_of rows_with_missing_status). rewrite summarize_vars_run.
    assert (rate (summary_of rows_with_missing_status) = 50%Q) as Hrate
      by (vm_compute; reflexivity).
    split_and!; [done|done|done|done|by rewrite Hrate| |].
    + rewrite Hrate. vm_compute. discriminate.
    + rewrite Hrate. unfold within_rounding. vm_compute.
      intros [Hlo _]. by apply Hlo.
Qed.

(** * The Visualizer *)

Lemma enumerate_labels (s : list (string * Z)) :
  bar_label <$> enumerate (Pandas.values s)
  = (λ b, Plt.mkText (Plt.bar_x b) (Plt.bar_height b) (Py.str (Plt.bar_height b))
            "center" "bottom")
      <$> imap (λ i kv, Plt.mkBar (Z.of_nat i) kv.2) s.
Proof.
  unfold enumerate, Pandas.values. rewrite !fmap_imap, imap_fmap.
  by apply imap_ext.
Qed.

(** C9, the code on a numeric Status column.  With the Status column 7, 9,
    9 the counts are 9: 2 and 7: 1.  The bars stand at x = 9 (height 2) and
    x = 7 (height 1): read from left to right the heights ascend.  The texts
    stand at x = 0 and x = 1, where no bar is.  [plot_blocked] avoids this by
    passing its index through [astype(str)]; [plot_status] does not. *)
Theorem plot_status_numeric_labels `{Env} (p : Proc) :
  ∃ fig,
    plot_status_int64 [7; 9; 9] p
    = (mkProc (<[status_plot_path := ImageFile fig]> (fs p))
         (stdout p ++ ["[+] Saved plot: " +:+ status_plot_path]) (fig :: figs p),
       inr ())
    ∧ Pandas.value_counts (Some <$> [7; 9; 9]) = [(9, 2); (7, 1)]
    ∧ Plt.bars fig = [Plt.mkBar 9 2; Plt.mkBar 7 1]
    ∧ Plt.texts fig = [ Plt.mkText 0 2 "2" "center" "bottom";
                        Plt.mkText 1 1 "1" "center" "bottom" ]
    ∧ (∀ b t, b ∈ Plt.bars fig → t ∈ Plt.texts fig → Plt.text_x t ≠ Plt.bar_x b)
    ∧ (∀ b b', b ∈ Plt.bars fig → b' ∈ Plt.bars fig →
         Plt.bar_x b < Plt.bar_x b' → Plt.bar_height b < Plt.bar_height b').
Proof.
  eexists. split_and!.
  - unfold plot_status_int64, mbind, M_bind, plt_figure, plt_bar_at, plt_title,
      plt_ylabel, plt_xlabel, on_gcf. simpl. reflexivity.
  - reflexivity.
  - reflexivity.
  - reflexivity.
  - simpl. intros b t Hb Ht.
    repeat (apply elem_of_cons in Hb as [->|Hb]);
      repeat (apply elem_of_cons in Ht as [->|Ht]);
      try (by apply elem_of_nil in Hb); try (by apply elem_of_nil in Ht); done.
  - simpl. intros b b' Hb Hb'.
    repeat (apply elem_of_cons in Hb as [->|Hb]);
      repeat (apply elem_of_cons in Hb' as [->|Hb']);
      try (by apply elem_of_nil in Hb); try (by apply elem_of_nil in Hb');
      simpl; lia.
Qed.

Lemma sort_index_entry k n (col : list Z) :
  (k, n) ∈ Pandas.sort_index (Pandas.value_counts (Some <$> col)) →
  n = occurrences k (Some <$> col).
Proof. rewrite sort_index_Permutation. apply value_counts_entry. Qed.

(** C5. The chart [plot_blocked] saves has one bar per distinct value of the
    BlockedThreads column; the values, read from left to right, are
    strictly increasing; the bar of a value stands under that value's tick
    label and its height is the number of Runs with that value.  For the
    column 0,0,1,1,1,3 the bars are: 0 with height 2, 1 with height 3, 3
    with height 1, in that order. *)
Theorem plot_blocked_bars `{Env} (df : DataFrame) (p : Proc) :
  let col := BlockedThreads <$> df in
  (∃ fig (xs : list Z),
      plot_blocked df p
      = (mkProc (<[blocked_plot_path := ImageFile fig]> (fs p))
           (stdout p ++ ["[+] Saved plot: " +:+ blocked_plot_path]) (fig :: figs p),
         inr ())
      ∧ StronglySorted Z.lt xs
      ∧ (∀ x, x ∈ xs ↔ x ∈ col)
      ∧ Plt.bars fig
        = imap (λ i x, Plt.mkBar (Z.of_nat i) (occurrences x (Some <$> col))) xs
      ∧ (∀ i x, xs !! i = Some x → Plt.units fig !! Py.str x = Some (Z.of_nat i)))
  ∧ (∃ fig,
      fs (plot_blocked scenario_blocked p).1 !! blocked_plot_path = Some (ImageFile fig)
      ∧ Plt.bars fig = [Plt.mkBar 0 2; Plt.mkBar 1 3; Plt.mkBar 2 1]
      ∧ Plt.units fig = <["0" := 0]> (<["1" := 1]> (<["3" := 2]> ∅))).
Proof.
  intros col. split.
  - set (counts := Pandas.sort_index (Pandas.value_counts (Some <$> col))).
    assert (NoDup (Pandas.index counts)) as Hnd.
    { unfold Pandas.index, counts. rewrite sort_index_Permutation.
      apply NoDup_index_value_counts. }
    assert (NoDup (Py.str <$> Pandas.index counts)) as Hnd'.
    { by apply (NoDup_fmap_2 (pretty : Z → string)). }
    exists (blocked_figure df), (Pandas.index counts). rewrite plot_blocked_run.
    split_and!.
    + done.
    + apply asc_NoDup_strict; [apply sort_index_sorted | done].
    + intros x. pose proof (index_value_counts x (Some <$> col)) as Hix.
      unfold Pandas.index, counts in *. rewrite sort_index_Permutation, Hix.
      rewrite list_elem_of_fmap. split.
      * by intros (y & [= ->] & Hy).
      * intros Hx. by exists x.
    + pose proof (bars_in_series_order Py.str counts Hnd') as Hb. simpl in Hb.
      change (Plt.bars (blocked_figure df))
        with (zip_with
                (λ c h, Plt.mkBar (Plt.units_update (Py.str <$> Pandas.index counts) ∅ !!! c) h)
                (Py.str <$> Pandas.index counts) (Pandas.values counts)).
      rewrite Hb. unfold Pandas.index. rewrite imap_fmap.
      apply imap_ext. intros i [k n] Hi. simpl. f_equal.
      apply sort_index_entry. by eapply list_elem_of_lookup_2.
    + intros i x Hi.
      change (Plt.units (blocked_figure df))
        with (Plt.units_update (Py.str <$> Pandas.index counts) ∅).
      apply units_update_position; [done|]. by rewrite list_lookup_fmap, Hi.
  - exists (blocked_figure scenario_blocked). rewrite plot_blocked_run. simpl.
    split_and!.
    + by rewrite lookup_insert_eq.
    + vm_compute. reflexivity.
    + vm_compute. reflexivity.
Qed.

(** * The pipeline *)

Lemma printed_app (q : Proc) files (lines : list string) figures :
  printed q (mkProc files (stdout q ++ lines) figures) = lines.
Proof. unfold printed. simpl. apply drop_app_length. Qed.

(** Every routine after the Loader leaves a trace on the console. *)
Lemma downstream_prints `{Env} (df : DataFrame) (q : Proc) :
  printed q (summarize df q).1 ≠ []
  ∧ printed q (plot_status df q).1 ≠ []
  ∧ printed q (plot_blocked df q).1 ≠ []
  ∧ printed q (print_stats df q).1 ≠ [].
Proof.
  rewrite summarize_run, plot_status_run, plot_blocked_run, print_stats_run.
  simpl. rewrite !printed_app. done.
Qed.

(** C4. When the input file does not exist, the Loader returns [None] without
    raising, and the whole run prints exactly one text, the diagnostic, which
    contains the path of the missing file; the run returns normally, leaves
    the files as they were and opens no figure.  As each routine after the
    Loader prints at least one text, none of them has run. *)
Theorem missing_input_stops_pipeline `{Env} (files : gmap string File) :
  files !! INPUT_FILE = None →
  load_data (mkProc files [] []) = (mkProc files [missing_input_message] [], inr None)
  ∧ run files = (mkProc files [missing_input_message] [], inr ())
  ∧ (∃ pre post, missing_input_message = pre +:+ INPUT_FILE +:+ post)
  ∧ (∀ df q, printed q (summarize df q).1 ≠ []
           ∧ printed q (plot_status df q).1 ≠ []
           ∧ printed q (plot_blocked df q).1 ≠ []
           ∧ printed q (print_stats df q).1 ≠ []).
Proof.
  intros Habsent. unfold run. rewrite load_data_run, main_run. simpl.
  rewrite Habsent. split_and!; [done|done| |apply @downstream_prints].
  by exists "Error: Missing ", ". Run collect_metrics.sh first.".
Qed.

Lemma missing_input_stops_pipeline_witness :
  (∅ : gmap string File) !! @INPUT_FILE latex_unavailable = None
  ∧ @run latex_unavailable ∅
    = (mkProc ∅
         ["Error: Missing /opt/reentryfs/artefacts/abba_metrics.csv. Run collect_metrics.sh first."]
         [], inr ()).
Proof.
  split; [reflexivity|].
  apply (@missing_input_stops_pipeline latex_unavailable ∅). reflexivity.
Defined.

(** C7. When the typeset rendering raises, [print_stats] still returns
    normally: after the console table it prints the header of the typeset
    section, then the one-line diagnostic in place of the table, then the
    closing rule.  The console table, printed before, is what it is when the
    rendering succeeds: header, rule and the rounded statistics.  A run
    whose input parses therefore ends normally too. *)
Theorem latex_failure_is_swallowed `{Env} (df : DataFrame) (p : Proc) (e : Py.Exn) :
  Stats_to_latex "%.2f" (stats_of df) = inl e →
  print_stats df p
  = (mkProc (fs p)
       (stdout p
          ++ [ nl +:+ "[Summary Statistics]"; Py.str_mul "-" 20; Stats_str (stats_of df) ]
          ++ [ nl +:+ "[LaTeX Table Code]"; Py.str_mul "-" 20;
               "[!] Could not generate LaTeX code."; Py.str_mul "-" 20 ])
       (figs p),
     inr ())
  ∧ (∀ files file,
       files !! INPUT_FILE = Some file → read_csv file = inr df →
       (run files).2 = inr ()).
Proof.
  intros Hfail. split.
  - rewrite print_stats_run. unfold latex_lines, stats_table_lines. by rewrite Hfail.
  - intros files file Hfile Hparse. unfold run. rewrite main_run. simpl.
    by rewrite Hfile, Hparse.
Qed.

Lemma latex_failure_is_swallowed_witness :
  @Stats_to_latex latex_unavailable "%.2f" (@stats_of latex_unavailable scenario_rows)
  = inl (Py.mkExn "ImportError" "Missing optional dependency Jinja2")
  ∧ (@print_stats latex_unavailable scenario_rows (mkProc ∅ [] [])).2 = inr ().
Proof.
  split; [reflexivity|].
  destruct (@latex_failure_is_swallowed latex_unavailable scenario_rows (mkProc ∅ [] [])
              (Py.mkExn "ImportError" "Missing optional dependency Jinja2") eq_refl)
    as [Hrun _].
  rewrite Hrun. reflexivity.
Defined.

(** The console table does not depend on the outcome of the typeset
    rendering. *)
Lemma console_table_first `{Env} (df : DataFrame) (p : Proc) :
  take 3 (printed p (print_stats df p).1)
  = [ nl +:+ "[Summary Statistics]"; Py.str_mul "-" 20; Stats_str (stats_of df) ].
Proof. rewrite print_stats_run. simpl. by rewrite printed_app. Qed.

Lemma saved_plots_idempotent (files : gmap string File) (a b : string) (x y : File) :
  <[b := y]> (<[a := x]> (<[b := y]> (<[a := x]> files)))
  = <[b := y]> (<[a := x]> files).
Proof.
  apply map_eq. intros i. rewrite !lookup_insert. by repeat case_decide.
Qed.

(** C8. A second run on the files the first run left behind prints the same
    console text, ends the same way and leaves the same files, hence the same
    two charts: the first run does not touch the input file, and every
    routine prints and draws what the table alone determines. *)
Theorem rerun_is_identical `{Env} (files : gmap string File) :
  let first := run files in
  let second := run (fs first.1) in
  fs first.1 !! INPUT_FILE = files !! INPUT_FILE
  ∧ console_text (stdout second.1) = console_text (stdout first.1)
  ∧ second.2 = first.2
  ∧ fs second.1 !! status_plot_path = fs first.1 !! status_plot_path
  ∧ fs second.1 !! blocked_plot_path = fs first.1 !! blocked_plot_path
  ∧ second = first
  ∧ (∀ df q q',
       printed q (summarize df q).1 = printed q' (summarize df q').1
       ∧ printed q (plot_status df q).1 = printed q' (plot_status df q').1
       ∧ fs (plot_status df q).1 !! status_plot_path
         = fs (plot_status df q').1 !! status_plot_path
       ∧ printed q (plot_blocked df q).1 = printed q' (plot_blocked df q').1
       ∧ fs (plot_blocked df q).1 !! blocked_plot_path
         = fs (plot_blocked df q').1 !! blocked_plot_path
       ∧ printed q (print_stats df q).1 = printed q' (print_stats df q').1).
Proof.
  intros first second.
  assert (fs first.1 !! INPUT_FILE = files !! INPUT_FILE) as Hinput.
  { unfold first, run. rewrite main_run. simpl.
    destruct (files !! INPUT_FILE) as [file|] eqn:Hfile; simpl; [|done].
    destruct (read_csv file) as [e|df]; simpl; [done|].
    rewrite lookup_insert_ne by apply INPUT_FILE_not_blocked_plot.
    by rewrite lookup_insert_ne by apply INPUT_FILE_not_status_plot. }
  assert (second = first) as Hsame.
  { unfold second, run at 1. rewrite main_run. simpl. rewrite Hinput.
    unfold first, run. rewrite main_run. simpl.
    destruct (files !! INPUT_FILE) as [file|]; simpl; [|done].
    destruct (read_csv file) as [e|df]; simpl; [done|].
    unfold after_pipeline. simpl. by rewrite saved_plots_idempotent. }
  split_and!; [done|by rewrite Hsame..|done|].
  intros df q q'.
  rewrite !summarize_run, !plot_status_run, !plot_blocked_run, !print_stats_run.
  simpl. rewrite !printed_app, !lookup_insert_eq. done.
Qed.

(** * Worked examples *)

Example truediv_by_zero : Py.truediv 0 0 = inl Py.ZeroDivisionError.
Proof. reflexivity. Qed.

Example value_counts_ties_first_seen :
  Pandas.value_counts [Some "b"; Some "a"; None; Some "a"; Some "b"; Some "c"]
  = [("b", 2); ("a", 2); ("c", 1)].
Proof. reflexivity. Qed.

Example get_is_case_sensitive :
  Pandas.get "DEADLOCK" 0
    (Pandas.value_counts [Some "deadlock"; Some "DEADLOCK"; Some "DEADLOCKED"]) = 1.
Proof. reflexivity. Qed.

Example sort_index_by_value :
  Pandas.sort_index (Pandas.value_counts (Some <$> [3; 1; 1; 0; 1; 0]))
  = [(0, 2); (1, 3); (3, 1)].
Proof. reflexivity. Qed.

Example binary64_values :
  Py.fl (1 # 10) = (3602879701896397 # 36028797018963968)%Q
  ∧ Py.fl (1 # 3) = (6004799503160661 # 18014398509481984)%Q
  ∧ Py.fl (inject_Z (2 ^ 53 + 1)) = inject_Z (2 ^ 53)
  ∧ float_rate 1 2 = 50%Q
  ∧ float_rate 23 80 = (8092405580431359 # 281474976710656)%Q
  ∧ float_rate (2 ^ 54 - 1) (2 ^ 54) = 100%Q.
Proof. vm_compute. done. Qed.

Example format_1f_values :
  Py.format_1f 0 = "0.0" ∧ Py.format_1f 100 = "100.0"
  ∧ Py.format_1f (25 # 2) = "12.5" ∧ Py.format_1f (100 # 3) = "33.3".
Proof. vm_compute. done. Qed.

Example scenario_console :
  stdout (@run latex_unavailable
            {[ @INPUT_FILE latex_unavailable := TextFile "" ]}).1
  = [ "----------------------------------------";
      "       AB-BA DEADLOCK METRICS       ";
      "----------------------------------------";
      "Total Runs:              3";
      "Successful Deadlocks:    2";
      "Deadlock Success Rate:   66.7%";
      nl +:+ "Status Breakdown:";
      "DEADLOCK    2" +:+ nl +:+ "TIMEOUT    1" +:+ nl;
      "----------------------------------------";
      "[+] Saved plot: /opt/reentryfs/artefacts/status_distribution.png";
      "[+] Saved plot: /opt/reentryfs/artefacts/blocked_threads.png";
      nl +:+ "[Summary Statistics]";
      "--------------------";
      "BlockedThreads WaitQueue ";
      nl +:+ "[LaTeX Table Code]";
      "--------------------";
      "[!] Could not generate LaTeX code.";
      "--------------------" ].
Proof. vm_compute. reflexivity. Qed.

(** * Further properties of the script *)

(** ** Where the files are *)

Lemma append_cons (c : ascii) (a b : string) : String c a +:+ b = String c (a +:+ b).
Proof. reflexivity. Qed.

Lemma append_nil_l (b : string) : "" +:+ b = b.
Proof. reflexivity. Qed.

Lemma has_sep_append_sep (a b : string) : has_sep (a +:+ "/" +:+ b) = true.
Proof.
  induction a as [|c a IH]; [done|].
  rewrite (append_cons c a). simpl. rewrite IH. apply orb_true_r.
Qed.

Lemma upto_last_sep_append (a b : string) :
  has_sep b = false → upto_last_sep (a +:+ "/" +:+ b) = a +:+ "/".
Proof.
  intros Hb. induction a as [|c a IH].
  - rewrite !append_nil_l. change ("/" +:+ b) with (String "/" b). simpl. by rewrite Hb.
  - rewrite (append_cons c a), (append_cons c a "/"). simpl.
    by rewrite has_sep_append_sep, IH.
Qed.

Lemma all_sep_append_sep (a : string) :
  a ≠ "" → ends_with_sep a = false → all_sep (a +:+ "/") = false.
Proof.
  induction a as [|c a IH]; [done|]. intros _ Hend. rewrite (append_cons c a). simpl.
  destruct a as [|c' a].
  - simpl in Hend. rewrite Hend. done.
  - rewrite IH; [apply andb_false_r|done|done].
Qed.

Lemma rstrip_sep_append_sep (a : string) :
  ends_with_sep a = false → rstrip_sep (a +:+ "/") = a.
Proof.
  induction a as [|c a IH]; [done|]. intros Hend. rewrite (append_cons c a). simpl.
  destruct a as [|c' a].
  - simpl in Hend. rewrite Hend. done.
  - rewrite all_sep_append_sep, andb_false_r by done. by rewrite IH.
Qed.

(** The directory of [r/n] is [r]. *)
Lemma dirname_append (r n : string) :
  r ≠ "" → ends_with_sep r = false → has_sep n = false →
  dirname (r +:+ "/" +:+ n) = r.
Proof.
  intros Hr Hend Hn. unfold dirname. rewrite upto_last_sep_append by done.
  rewrite all_sep_append_sep by done.
  rewrite bool_decide_eq_false_2 by (by destruct r).
  by apply rstrip_sep_append_sep.
Qed.

(** The directory of [/n] is the root. *)
Lemma dirname_root (n : string) : has_sep n = false → dirname ("/" +:+ n) = "/".
Proof.
  intros Hn. unfold dirname.
  rewrite <- (append_nil_l ("/" +:+ n)), upto_last_sep_append by done. done.
Qed.

Lemma no_sep_no_trailing_sep (d : string) : has_sep d = false → ends_with_sep d = false.
Proof.
  induction d as [|c d IH]; [done|]. simpl. intros Hd.
  apply orb_false_iff in Hd as [Hc Hd]. destruct d; [done|by apply IH].
Qed.

Lemma path_join_plain (a b : string) :
  a ≠ "" → ends_with_sep a = false → path_join a b = a +:+ "/" +:+ b.
Proof.
  intros Ha Hend. unfold path_join. by rewrite Hend, bool_decide_eq_false_2.
Qed.

(** With the script at [R/d/analyse.py], for a directory name [d], the input
    and both charts are in [R/artefacts]; this also holds at the top of the
    file system, where [R] is empty and [PROJECT_ROOT] is the root. *)
Theorem files_beside_script_directory `{Env} (R d : string) :
  ends_with_sep R = false → d ≠ "" → has_sep d = false →
  PROJECT_ROOT = project_root_of (R +:+ "/" +:+ d +:+ "/analyse.py") →
  PROJECT_ROOT = (if bool_decide (R = "") then "/" else R)
  ∧ INPUT_FILE = R +:+ "/artefacts/abba_metrics.csv"
  ∧ status_plot_path = R +:+ "/artefacts/status_distribution.png"
  ∧ blocked_plot_path = R +:+ "/artefacts/blocked_threads.png".
Proof.
  intros HR Hd Hsep Hroot.
  assert (dirname (R +:+ "/" +:+ d +:+ "/analyse.py") = R +:+ "/" +:+ d) as Hdir.
  { rewrite <- (append_assoc "/" d), <- (append_assoc R).
    apply dirname_append; [by destruct R| |done].
    rewrite (ends_with_sep_append R ("/" +:+ d)) by done.
    rewrite (ends_with_sep_append "/" d) by done.
    by apply no_sep_no_trailing_sep. }
  assert (PROJECT_ROOT = if bool_decide (R = "") then "/" else R) as Hpr.
  { rewrite Hroot. unfold project_root_of. rewrite Hdir.
    destruct R as [|c R]; [by apply dirname_root|].
    by apply dirname_append. }
  assert (OUTPUT_DIR = R +:+ "/artefacts") as Hout.
  { unfold OUTPUT_DIR. rewrite Hpr. destruct R as [|c R]; [done|].
    by apply path_join_plain. }
  split_and!; [done|..].
  - rewrite INPUT_FILE_in_OUTPUT_DIR, Hout. by rewrite append_assoc.
  - unfold status_plot_path. rewrite Hout. by rewrite append_assoc.
  - unfold blocked_plot_path. rewrite Hout. by rewrite append_assoc.
Qed.

Lemma files_beside_script_directory_witness :
  ends_with_sep "/opt/reentryfs" = false ∧ "evaluation" ≠ ""
  ∧ has_sep "evaluation" = false
  ∧ @PROJECT_ROOT latex_unavailable
    = project_root_of "/opt/reentryfs/evaluation/analyse.py"
  ∧ @INPUT_FILE latex_unavailable = "/opt/reentryfs/artefacts/abba_metrics.csv".
Proof.
  split_and!; [reflexivity|discriminate|reflexivity|reflexivity|].
  apply (@files_beside_script_directory latex_unavailable "/opt/reentryfs" "evaluation");
    [reflexivity|discriminate|reflexivity|reflexivity].
Defined.

Lemma status_plot_not_blocked_plot `{Env} : status_plot_path ≠ blocked_plot_path.
Proof.
  unfold status_plot_path, blocked_plot_path.
  intros Heq. by apply append_inv_head in Heq.
Qed.

(** The input and the two charts are three different files of
    [OUTPUT_DIR], wherever the project is. *)
Theorem three_distinct_files `{Env} :
  INPUT_FILE = OUTPUT_DIR +:+ "/abba_metrics.csv"
  ∧ status_plot_path ≠ INPUT_FILE
  ∧ blocked_plot_path ≠ INPUT_FILE
  ∧ status_plot_path ≠ blocked_plot_path
  ∧ OUTPUT_DIR ≠ "" ∧ ends_with_sep OUTPUT_DIR = false.
Proof.
  split_and!.
  - apply INPUT_FILE_in_OUTPUT_DIR.
  - apply INPUT_FILE_not_status_plot.
  - apply INPUT_FILE_not_blocked_plot.
  - apply status_plot_not_blocked_plot.
  - destruct (path_join_suffix PROJECT_ROOT "artefacts") as [a' Ha].
    unfold OUTPUT_DIR. rewrite Ha. by destruct a'.
  - destruct (path_join_suffix PROJECT_ROOT "artefacts") as [a' Ha].
    unfold OUTPUT_DIR. rewrite Ha. by rewrite ends_with_sep_append.
Qed.

(** ** More on the Summarizer *)

Lemma occurrences_le_length {A} `{EqDecision A} (k : A) (col : list (option A)) :
  occurrences k col ≤ Z.of_nat (length col).
Proof.
  unfold occurrences. pose proof (length_filter (λ o, o = Some k) col). lia.
Qed.

Lemma occurrences_Permutation {A} `{EqDecision A} (k : A) (col col' : list (option A)) :
  col ≡ₚ col' → occurrences k col = occurrences k col'.
Proof. intros Hperm. unfold occurrences. by rewrite Hperm. Qed.

Lemma value_counts_elem_of {A} `{EqDecision A} (k : A) (n : Z) (col : list (option A)) :
  (k, n) ∈ Pandas.value_counts col ↔ Some k ∈ col ∧ n = occurrences k col.
Proof.
  split.
  - intros Hin. split; [|by apply value_counts_entry].
    apply index_value_counts. unfold Pandas.index.
    apply list_elem_of_fmap. by exists (k, n).
  - intros [Hin ->]. apply index_value_counts in Hin.
    unfold Pandas.index in Hin.
    apply list_elem_of_fmap in Hin as [[k' n'] [Hk Hin]]. simpl in Hk. subst k'.
    by rewrite <- (value_counts_entry k n' col Hin).
Qed.

Lemma NoDup_value_counts {A} `{EqDecision A} (col : list (option A)) :
  NoDup (Pandas.value_counts col).
Proof. apply (NoDup_fmap_1 fst), NoDup_index_value_counts. Qed.

Lemma value_counts_Permutation_col {A} `{EqDecision A} (col col' : list (option A)) :
  col ≡ₚ col' → Pandas.value_counts col ≡ₚ Pandas.value_counts col'.
Proof.
  intros Hperm. apply NoDup_Permutation; [apply NoDup_value_counts..|].
  intros [k n]. rewrite !value_counts_elem_of.
  rewrite (occurrences_Permutation k col col' Hperm).
  split; intros [Hin Hn]; (split; [|done]).
  - by rewrite <- Hperm.
  - by rewrite Hperm.
Qed.

(** The deadlock count lies between 0 and the number of runs, and the rate
    between 0 and 100. *)
Theorem rate_is_a_percentage (df : DataFrame) (p : Proc) :
  ∃ v, summarize_vars df p = (p, inr v)
     ∧ 0 ≤ deadlocks v ≤ total v
     ∧ (0 <= rate v)%Q ∧ (rate v <= 100)%Q.
Proof.
  exists (summary_of df). rewrite summarize_vars_run. simpl.
  pose proof (occurrences_nonneg "DEADLOCK" (Status <$> df)) as Hlo.
  pose proof (occurrences_le_length "DEADLOCK" (Status <$> df)) as Hhi.
  rewrite length_fmap in Hhi. rewrite get_value_counts. fold (len df) in Hhi.
  assert (0 ≤ len df) as Hlen by (unfold len; lia).
  split_and!; [done|lia|..]; unfold rate_of; rewrite ?get_value_counts;
    destruct (decide (len df ≠ 0)) as [Hne|Heq]; try done.
  - apply (float_rate_range _ (len df)); lia.
  - apply (float_rate_range _ (len df)); lia.
Qed.

(** The breakdown lists each Status value that some Run has, once, with the
    number of Runs that have it, which is at least 1; it lists nothing
    else. *)
Theorem breakdown_entries (df : DataFrame) (p : Proc) :
  ∃ v, summarize_vars df p = (p, inr v)
     ∧ NoDup (Pandas.index (status_counts v))
     ∧ (∀ k, k ∈ Pandas.index (status_counts v) ↔ Some k ∈ Status <$> df)
     ∧ (∀ k n, (k, n) ∈ status_counts v ↔
               Some k ∈ Status <$> df ∧ n = occurrences k (Status <$> df))
     ∧ Forall (λ kn, 1 ≤ kn.2 ≤ total v) (status_counts v).
Proof.
  exists (summary_of df). rewrite summarize_vars_run. simpl.
  split_and!; [done|apply NoDup_index_value_counts| | |].
  - intros k. apply index_value_counts.
  - intros k n. apply value_counts_elem_of.
  - apply Forall_forall. intros [k n] Hin. simpl.
    apply value_counts_elem_of in Hin as [Hin ->].
    apply occurrences_pos in Hin.
    pose proof (occurrences_le_length k (Status <$> df)) as Hhi.
    rewrite length_fmap in Hhi. unfold len. lia.
Qed.

(** The order of the rows does not matter to the figures of the report: two
    tables whose Status columns are rearrangements of each other give the
    same total, deadlock count and rate, and breakdowns with the same
    entries. *)
Theorem summarize_row_order (df df' : DataFrame) (p : Proc) :
  Status <$> df ≡ₚ Status <$> df' →
  ∃ v v', summarize_vars df p = (p, inr v)
        ∧ summarize_vars df' p = (p, inr v')
        ∧ total v = total v'
        ∧ deadlocks v = deadlocks v'
        ∧ rate v = rate v'
        ∧ status_counts v ≡ₚ status_counts v'.
Proof.
  intros Hperm. exists (summary_of df), (summary_of df').
  rewrite !summarize_vars_run. simpl.
  assert (len df = len df') as Hlen.
  { unfold len. apply Permutation_length in Hperm.
    rewrite !length_fmap in Hperm. by rewrite Hperm. }
  assert (Pandas.get "DEADLOCK" 0 (Pandas.value_counts (Status <$> df))
          = Pandas.get "DEADLOCK" 0 (Pandas.value_counts (Status <$> df'))) as Hdead.
  { rewrite !get_value_counts. by apply occurrences_Permutation. }
  split_and!; [done|done|done|done| |by apply value_counts_Permutation_col].
  unfold rate_of. by rewrite Hlen, Hdead.
Qed.

Lemma summarize_row_order_witness :
  let df := scenario_rows in
  let df' := [ mkRun (Some "TIMEOUT") 0 0; mkRun (Some "DEADLOCK") 2 5;
               mkRun (Some "DEADLOCK") 1 3 ] in
  Status <$> df ≡ₚ Status <$> df'
  ∧ ∃ v v', summarize_vars df (mkProc ∅ [] []) = (mkProc ∅ [] [], inr v)
          ∧ summarize_vars df' (mkProc ∅ [] []) = (mkProc ∅ [] [], inr v')
          ∧ rate v = rate v'.
Proof.
  intros df df'.
  assert (Status <$> df ≡ₚ Status <$> df') as Hperm by apply perm_swap.
  split; [exact Hperm|].
  destruct (summarize_row_order df df' (mkProc ∅ [] []) Hperm)
    as (v & v' & Hv & Hv' & _ & _ & Hrate & _).
  by exists v, v'.
Defined.

(** ** More on the Visualizer *)

Lemma length_le_Zsum (l : list Z) :
  Forall (λ x, 1 ≤ x) l → Z.of_nat (length l) ≤ Zsum l.
Proof. unfold Zsum. induction 1 as [|x l Hx Hall IH]; simpl in *; lia. Qed.

Lemma present_fmap_Some {A} (l : list A) : present (Some <$> l) = Z.of_nat (length l).
Proof.
  unfold present. induction l as [|x l IH]; [done|].
  rewrite fmap_cons, filter_cons_True by done. simpl in *. lia.
Qed.

Lemma value_counts_values_positive {A} `{EqDecision A} (col : list (option A)) :
  Forall (λ x, 1 ≤ x) (Pandas.values (Pandas.value_counts col)).
Proof.
  unfold Pandas.values. apply Forall_fmap, Forall_forall. intros [k n] Hin. simpl.
  apply value_counts_elem_of in Hin as [Hin ->]. apply occurrences_pos in Hin. lia.
Qed.

(** When the Status column holds text labels, the chart [plot_status] saves
    has one bar for each Status value that some Run has and none besides, in
    the order of the counts, which is the order of the Summarizer's
    breakdown: the i-th bar stands at position i, under the tick label of the
    i-th Status value, and its height is the number of Runs with that Status;
    the heights descend from left to right; the i-th text sits on top of the
    i-th bar and reads the bar's height. *)
Theorem plot_status_bars `{Env} (df : DataFrame) (p : Proc) :
  let counts := Pandas.value_counts (Status <$> df) in
  ∃ fig,
    plot_status df p
    = (mkProc (<[status_plot_path := ImageFile fig]> (fs p))
         (stdout p ++ ["[+] Saved plot: " +:+ status_plot_path]) (fig :: figs p),
       inr ())
    ∧ Plt.bars fig = imap (λ i kv, Plt.mkBar (Z.of_nat i) kv.2) counts
    ∧ (∀ i kv, counts !! i = Some kv →
         Plt.units fig !! kv.1 = Some (Z.of_nat i)
         ∧ Some kv.1 ∈ Status <$> df
         ∧ kv.2 = occurrences kv.1 (Status <$> df))
    ∧ (∀ k, Some k ∈ Status <$> df →
         ∃ i, Plt.units fig !! k = Some (Z.of_nat i)
              ∧ Plt.bars fig !! i
                = Some (Plt.mkBar (Z.of_nat i) (occurrences k (Status <$> df))))
    ∧ Plt.bar_x <$> Plt.bars fig = Z.of_nat <$> seq 0 (length counts)
    ∧ StronglySorted (λ h h', h' ≤ h) (Plt.bar_height <$> Plt.bars fig)
    ∧ Plt.texts fig
      = (λ b, Plt.mkText (Plt.bar_x b) (Plt.bar_height b) (Py.str (Plt.bar_height b))
                "center" "bottom") <$> Plt.bars fig
    ∧ (∃ v, summarize_vars df p = (p, inr v) ∧ status_counts v = counts)
    ∧ Series_to_string counts ∈ printed p (summarize df p).1.
Proof.
  intros counts. exists (status_figure df). rewrite plot_status_run.
  pose proof (NoDup_index_value_counts (Status <$> df)) as Hnd. fold counts in Hnd.
  assert (Plt.bars (status_figure df)
          = imap (λ i kv, Plt.mkBar (Z.of_nat i) kv.2) counts) as Hbars.
  { pose proof (bars_in_series_order id counts) as Hb.
    rewrite list_fmap_id in Hb. by apply Hb. }
  assert (∀ i k n, counts !! i = Some (k, n) →
            Plt.units (status_figure df) !! k = Some (Z.of_nat i)) as Hunits.
  { intros i k n Hi. apply units_update_position; [done|].
    unfold Pandas.index. fold counts. by rewrite list_lookup_fmap, Hi. }
  split_and!.
  - done.
  - done.
  - intros i [k n] Hi. simpl.
    pose proof Hi as Hin. apply list_elem_of_lookup_2, value_counts_elem_of in Hin.
    destruct Hin as [Hin Hn]. split_and!; [exact (Hunits i k n Hi)|done|done].
  - intros k Hin.
    assert ((k, occurrences k (Status <$> df)) ∈ counts) as Hentry
      by (by apply value_counts_elem_of).
    apply list_elem_of_lookup_1 in Hentry as [i Hi]. exists i. split.
    + exact (Hunits i k _ Hi).
    + by rewrite Hbars, list_lookup_imap, Hi.
  - rewrite Hbars, fmap_imap. apply (imap_seq_0 counts Z.of_nat).
  - rewrite Hbars, fmap_imap.
    rewrite (imap_ext _ (const snd)) by done. rewrite imap_const.
    apply (StronglySorted_fmap snd desc); [done|]. apply value_counts_sorted.
  - rewrite Hbars. apply enumerate_labels.
  - exists (summary_of df). by rewrite summarize_vars_run.
  - rewrite summarize_run. unfold printed. simpl.
    rewrite drop_app_length. unfold summary_lines. simpl.
    do 7 apply list_elem_of_further. apply list_elem_of_here.
Qed.

(** The status chart is titled with the number of rows, while its bars add up
    to the number of rows that have a Status; it has as many texts as bars,
    and at most one bar per row. *)
Theorem status_chart_totals `{Env} (df : DataFrame) (p : Proc) :
  ∃ fig,
    fs (plot_status df p).1 !! status_plot_path = Some (ImageFile fig)
    ∧ Plt.title fig
      = "Race Condition Outcome (N=" +:+ Py.str (Z.of_nat (length df)) +:+ ")"
    ∧ Zsum (Plt.bar_height <$> Plt.bars fig)
      = Z.of_nat (length df) - missing (Status <$> df)
    ∧ length (Plt.texts fig) = length (Plt.bars fig)
    ∧ (length (Plt.bars fig) ≤ length df)%nat.
Proof.
  exists (status_figure df). rewrite plot_status_run.
  set (counts := Pandas.value_counts (Status <$> df)).
  assert (Plt.bars (status_figure df)
          = imap (λ i kv, Plt.mkBar (Z.of_nat i) kv.2) counts) as Hbars.
  { pose proof (bars_in_series_order id counts) as Hb.
    rewrite list_fmap_id in Hb. apply Hb. apply NoDup_index_value_counts. }
  assert (Plt.bar_height <$> Plt.bars (status_figure df) = Pandas.values counts) as Hheights.
  { rewrite Hbars, fmap_imap. rewrite (imap_ext _ (const snd)) by done.
    by rewrite imap_const. }
  pose proof (present_missing (Status <$> df)) as Hsplit.
  rewrite length_fmap in Hsplit.
  split_and!.
  - simpl. by rewrite lookup_insert_eq.
  - done.
  - rewrite Hheights. unfold counts. rewrite Zsum_value_counts. lia.
  - rewrite Hbars. unfold status_figure. simpl. fold counts.
    unfold enumerate, Pandas.values. by rewrite length_fmap, !length_imap, length_fmap.
  - pose proof (length_le_Zsum _ (value_counts_values_positive (Status <$> df))) as Hle.
    fold counts in Hle. unfold counts in Hle at 2. rewrite Zsum_value_counts in Hle.
    rewrite Hbars, length_imap. unfold Pandas.values in Hle.
    rewrite length_fmap in Hle.
    pose proof (length_filter (λ o : option string, is_Some o) (Status <$> df)) as Hf.
    rewrite length_fmap in Hf. unfold present in Hle. lia.
Qed.

Lemma NoDup_index_unique {A} `{EqDecision A} (s : list (A * Z)) k v v' :
  NoDup (Pandas.index s) → (k, v) ∈ s → (k, v') ∈ s → v = v'.
Proof.
  intros Hnd Hv Hv'. rewrite <- (get_elem_of k v 0 s Hnd Hv).
  by apply get_elem_of.
Qed.

(** Sorting by label forgets the order the entries came in. *)
Lemma sort_index_canonical (s s' : list (Z * Z)) :
  NoDup (Pandas.index s) → s ≡ₚ s' → Pandas.sort_index s = Pandas.sort_index s'.
Proof.
  intros Hnd Hperm.
  apply (StronglySorted_unique_strong asc); [|apply sort_index_sorted..|].
  - intros [k v] [k' v'] Hin Hin' Hle Hge. unfold asc in *. simpl in *.
    assert (k = k') as <- by lia. f_equal.
    rewrite sort_index_Permutation in Hin, Hin'. rewrite <- Hperm in Hin'.
    exact (NoDup_index_unique s k v v' Hnd Hin Hin').
  - by rewrite !sort_index_Permutation.
Qed.

(** In the blocked-threads chart no Run is counted twice: its bars add up to
    at most the number of rows; it carries no text, and it has at most one
    bar per row. *)
Theorem blocked_chart_totals `{Env} (df : DataFrame) (p : Proc) :
  ∃ fig,
    fs (plot_blocked df p).1 !! blocked_plot_path = Some (ImageFile fig)
    ∧ Zsum (Plt.bar_height <$> Plt.bars fig) ≤ Z.of_nat (length df)
    ∧ Plt.texts fig = []
    ∧ (length (Plt.bars fig) ≤ length df)%nat.
Proof.
  exists (blocked_figure df). rewrite plot_blocked_run.
  set (col := Some <$> (BlockedThreads <$> df)).
  set (counts := Pandas.sort_index (Pandas.value_counts col)).
  assert (NoDup (Py.str <$> Pandas.index counts)) as Hnd.
  { apply (NoDup_fmap_2 (pretty : Z → string)).
    unfold Pandas.index, counts. rewrite sort_index_Permutation.
    apply NoDup_index_value_counts. }
  assert (Plt.bars (blocked_figure df)
          = imap (λ i kv, Plt.mkBar (Z.of_nat i) kv.2) counts) as Hbars.
  { apply (bars_in_series_order Py.str counts Hnd). }
  assert (Plt.bar_height <$> Plt.bars (blocked_figure df) = Pandas.values counts) as Hheights.
  { rewrite Hbars, fmap_imap. rewrite (imap_ext _ (const snd)) by done.
    by rewrite imap_const. }
  assert (Zsum (Pandas.values counts) = Z.of_nat (length df)) as Hsum.
  { rewrite (Zsum_Permutation _ (Pandas.values (Pandas.value_counts col))).
    - rewrite Zsum_value_counts. unfold col.
      by rewrite present_fmap_Some, length_fmap.
    - unfold Pandas.values, counts. by rewrite sort_index_Permutation. }
  assert (Forall (λ x, 1 ≤ x) (Pandas.values counts)) as Hpos.
  { unfold Pandas.values, counts. rewrite sort_index_Permutation.
    apply value_counts_values_positive. }
  split_and!.
  - simpl. by rewrite lookup_insert_eq.
  - rewrite Hheights. lia.
  - done.
  - apply length_le_Zsum in Hpos. rewrite Hsum in Hpos.
    rewrite Hbars, length_imap. unfold Pandas.values in Hpos.
    rewrite length_fmap in Hpos. lia.
Qed.

(** The blocked-threads chart does not depend on the order of the rows, nor
    on the other columns: two tables whose BlockedThreads columns are
    rearrangements of each other make [plot_blocked] do the same. *)
Theorem blocked_chart_row_order `{Env} (df df' : DataFrame) (p : Proc) :
  BlockedThreads <$> df ≡ₚ BlockedThreads <$> df' →
  plot_blocked df p = plot_blocked df' p.
Proof.
  intros Hperm. rewrite !plot_blocked_run.
  assert (blocked_figure df = blocked_figure df') as ->; [|done].
  unfold blocked_figure.
  rewrite (sort_index_canonical
             (Pandas.value_counts (Some <$> (BlockedThreads <$> df)))
             (Pandas.value_counts (Some <$> (BlockedThreads <$> df')))); [done| |].
  - apply NoDup_index_value_counts.
  - apply value_counts_Permutation_col. by apply fmap_Permutation.
Qed.

Lemma blocked_chart_row_order_witness :
  BlockedThreads <$> scenario_blocked ≡ₚ BlockedThreads <$> reverse scenario_blocked
  ∧ @plot_blocked latex_unavailable scenario_blocked (mkProc ∅ [] [])
    = @plot_blocked latex_unavailable (reverse scenario_blocked) (mkProc ∅ [] []).
Proof.
  assert (BlockedThreads <$> scenario_blocked
          ≡ₚ BlockedThreads <$> reverse scenario_blocked) as Hperm.
  { apply fmap_Permutation. symmetry. apply reverse_Permutation. }
  split; [exact Hperm|].
  exact (@blocked_chart_row_order latex_unavailable scenario_blocked
           (reverse scenario_blocked) (mkProc ∅ [] []) Hperm).
Defined.

(** ** More on the pipeline *)

(** When the input file exists but does not parse, the error of the parser
    ends the run: nothing is printed, no file is written, no figure is
    opened. *)
Theorem parse_error_is_fatal `{Env} (files : gmap string File) (file : File) (e : Py.Exn) :
  files !! INPUT_FILE = Some file → read_csv file = inl e →
  load_data (mkProc files [] []) = (mkProc files [] [], inl e)
  ∧ run files = (mkProc files [] [], inl e).
Proof.
  intros Hfile Hparse. unfold run. rewrite load_data_run, main_run. simpl.
  by rewrite Hfile, Hparse.
Qed.

Lemma parse_error_is_fatal_witness :
  ({[ @INPUT_FILE latex_unavailable := ImageFile Plt.default_figure ]} : gmap string File)
    !! @INPUT_FILE latex_unavailable = Some (ImageFile Plt.default_figure)
  ∧ @read_csv latex_unavailable (ImageFile Plt.default_figure)
    = inl (Py.mkExn "ParserError" "not a delimited text file")
  ∧ (@run latex_unavailable
       {[ @INPUT_FILE latex_unavailable := ImageFile Plt.default_figure ]}).2
    = inl (Py.mkExn "ParserError" "not a delimited text file").
Proof.
  split_and!; [apply lookup_singleton_eq|reflexivity|].
  destruct (@parse_error_is_fatal latex_unavailable
              {[ @INPUT_FILE latex_unavailable := ImageFile Plt.default_figure ]}
              (ImageFile Plt.default_figure)
              (Py.mkExn "ParserError" "not a delimited text file")
              (lookup_singleton_eq _ _) eq_refl) as [_ Hrun].
  by rewrite Hrun.
Defined.

(** Whatever the outcome of a run, every file other than the two charts is
    afterwards what it was before: the script creates, changes or removes
    nothing else. *)
Theorem run_touches_only_charts `{Env} (files : gmap string File) (path : string) :
  path ≠ status_plot_path → path ≠ blocked_plot_path →
  fs (run files).1 !! path = files !! path.
Proof.
  intros Hstatus Hblocked. unfold run. rewrite main_run. simpl.
  destruct (files !! INPUT_FILE) as [file|]; [|done].
  destruct (read_csv file) as [e|df]; [done|]. simpl.
  by rewrite !lookup_insert_ne.
Qed.

Lemma run_touches_only_charts_witness :
  "/opt/reentryfs/README.md" ≠ @status_plot_path latex_unavailable
  ∧ "/opt/reentryfs/README.md" ≠ @blocked_plot_path latex_unavailable
  ∧ fs (@run latex_unavailable
          {[ @INPUT_FILE latex_unavailable := TextFile "";
             "/opt/reentryfs/README.md" := TextFile "reentryfs" ]}).1
       !! "/opt/reentryfs/README.md"
    = Some (TextFile "reentryfs").
Proof.
  assert ("/opt/reentryfs/README.md" ≠ @status_plot_path latex_unavailable) as H1
    by discriminate.
  assert ("/opt/reentryfs/README.md" ≠ @blocked_plot_path latex_unavailable) as H2
    by discriminate.
  split_and!; [exact H1|exact H2|].
  rewrite (@run_touches_only_charts latex_unavailable _ _ H1 H2).
  vm_compute. reflexivity.
Defined.

(** A run whose input parses is the four routines one after the other, none
    disturbing another: the console holds what [summarize], [plot_status],
    [plot_blocked] and [print_stats] print, in this order; each chart file
    holds what its routine saves when run alone; the run returns normally
    and leaves two figures open. *)
Theorem run_is_the_four_routines `{Env} (files : gmap string File) (file : File)
    (df : DataFrame) :
  files !! INPUT_FILE = Some file → read_csv file = inr df →
  let start := mkProc files [] [] in
  (run files).2 = inr ()
  ∧ stdout (run files).1
    = printed start (summarize df start).1
      ++ printed start (plot_status df start).1
      ++ printed start (plot_blocked df start).1
      ++ printed start (print_stats df start).1
  ∧ fs (run files).1 !! status_plot_path
    = fs (plot_status df start).1 !! status_plot_path
  ∧ fs (run files).1 !! blocked_plot_path
    = fs (plot_blocked df start).1 !! blocked_plot_path
  ∧ length (figs (run files).1) = 2%nat.
Proof.
  intros Hfile Hparse start. unfold start.
  rewrite summarize_run, plot_status_run, plot_blocked_run, print_stats_run.
  unfold run. rewrite main_run. simpl. rewrite Hfile, Hparse.
  unfold printed. simpl.
  split_and!; [done|done| |by rewrite !lookup_insert_eq|done].
  rewrite lookup_insert_ne, !lookup_insert_eq; [done|].
  intros Heq. symmetry in Heq. revert Heq. apply status_plot_not_blocked_plot.
Qed.

Lemma run_is_the_four_routines_witness :
  ({[ @INPUT_FILE latex_unavailable := TextFile "" ]} : gmap string File)
    !! @INPUT_FILE latex_unavailable = Some (TextFile "")
  ∧ @read_csv latex_unavailable (TextFile "") = inr scenario_rows
  ∧ (@run latex_unavailable {[ @INPUT_FILE latex_unavailable := TextFile "" ]}).2
    = inr ().
Proof.
  split_and!; [apply lookup_singleton_eq|reflexivity|].
  apply (@run_is_the_four_routines latex_unavailable
           {[ @INPUT_FILE latex_unavailable := TextFile "" ]} (TextFile "")
           scenario_rows (lookup_singleton_eq _ _) eq_refl).
Defined.

(** What the routines leave alone.  [summarize] and [print_stats] only print:
    they never raise, write no file and open no figure, and print 9 and 7
    texts.  Each plotting routine prints at most one text, opens one new
    figure without touching those already open, and writes no file but its
    own. *)
Theorem routines_change_nothing_else `{Env} (df : DataFrame) (p : Proc) :
  (summarize df p = (mkProc (fs p) (stdout p ++ printed p (summarize df p).1) (figs p), inr ())
   ∧ length (printed p (summarize df p).1) = 9%nat)
  ∧ (print_stats df p
     = (mkProc (fs p) (stdout p ++ printed p (print_stats df p).1) (figs p), inr ())
     ∧ length (printed p (print_stats df p).1) = 7%nat)
  ∧ ((length (printed p (plot_status df p).1) ≤ 1)%nat
     ∧ (∃ fig, figs (plot_status df p).1 = fig :: figs p)
     ∧ ∀ path, path ≠ status_plot_path →
         fs (plot_status df p).1 !! path = fs p !! path)
  ∧ ((length (printed p (plot_blocked df p).1) ≤ 1)%nat
     ∧ (∃ fig, figs (plot_blocked df p).1 = fig :: figs p)
     ∧ ∀ path, path ≠ blocked_plot_path →
         fs (plot_blocked df p).1 !! path = fs p !! path).
Proof.
  rewrite summarize_run, print_stats_run, plot_status_run, plot_blocked_run.
  simpl. rewrite !printed_app.
  split_and!; try done.
  - by eexists.
  - intros path Hne. by rewrite lookup_insert_ne.
  - by eexists.
  - intros path Hne. by rewrite lookup_insert_ne.
Qed.

(** ** Extremes of the rate, bars that are never empty *)

Lemma occurrences_all {A} `{EqDecision A} (k : A) (col : list (option A)) :
  occurrences k col = Z.of_nat (length col) ↔ Forall (λ o, o = Some k) col.
Proof.
  unfold occurrences. induction col as [|o col IH]; [done|].
  pose proof (length_filter (λ o, o = Some k) col) as Hle.
  rewrite Forall_cons. destruct (decide (o = Some k)) as [->|Hne].
  - rewrite filter_cons_True by done. simpl length.
    split; [intros Heq; split; [done|apply IH; lia] | intros [_ Hall]].
    apply IH in Hall. lia.
  - rewrite filter_cons_False by done. simpl length.
    split; [lia | by intros [? _]].
Qed.

(** On a table with at least one row (and fewer than 2^53, beyond which a
    binary64 no longer tells a count from its neighbour), the rate is 100
    exactly when every Run has the Status DEADLOCK, and 0 exactly when none
    has. *)
Theorem rate_extremes (df : DataFrame) (p : Proc) :
  df ≠ [] → Z.of_nat (length df) < 2 ^ 53 →
  ∃ v, summarize_vars df p = (p, inr v)
     ∧ ((rate v == 100)%Q ↔ Forall (λ r, Status r = Some "DEADLOCK") df)
     ∧ ((rate v == 0)%Q ↔ Some "DEADLOCK" ∉ Status <$> df).
Proof.
  intros Hne Hsize. exists (summary_of df). rewrite summarize_vars_run. simpl.
  unfold rate_of. rewrite get_value_counts.
  assert (0 < len df) as Hlen by (unfold len; destruct df; [done|simpl; lia]).
  rewrite decide_True by lia.
  pose proof (occurrences_nonneg "DEADLOCK" (Status <$> df)) as Hlo.
  pose proof (occurrences_le_length "DEADLOCK" (Status <$> df)) as Hhi.
  rewrite length_fmap in Hhi. fold (len df) in Hhi.
  pose proof (occurrences_all "DEADLOCK" (Status <$> df)) as Hall.
  rewrite Forall_fmap, length_fmap in Hall. fold (len df) in Hall.
  pose proof (occurrences_pos "DEADLOCK" (Status <$> df)) as Hpos.
  set (d := occurrences "DEADLOCK" (Status <$> df)) in *.
  fold (float_rate d (len df)).
  split_and!; [done|..].
  - split.
    + intros Hfull. apply Hall.
      destruct (decide (d = len df)) as [|Hlt]; [done|].
      pose proof (float_rate_partial d (len df) ltac:(lia) Hsize) as Hpart.
      rewrite Hfull in Hpart. by apply Qlt_irrefl in Hpart.
    + intros Hevery. apply Hall in Hevery. rewrite Hevery.
      by apply float_rate_full.
  - split.
    + intros Hzero Hin. apply Hpos in Hin.
      pose proof (float_rate_pos d (len df) Hin Hlen) as Hrate.
      rewrite Hzero in Hrate. by apply Qlt_irrefl in Hrate.
    + intros Hnotin.
      assert (d = 0) as ->.
      { destruct (decide (0 < d)) as [Hd|Hd]; [by apply Hpos in Hd|lia]. }
      by rewrite float_rate_zero.
Qed.

Lemma rate_extremes_witness :
  scenario_rows ≠ [] ∧ Z.of_nat (length scenario_rows) < 2 ^ 53
  ∧ ∃ v, summarize_vars scenario_rows (mkProc ∅ [] []) = (mkProc ∅ [] [], inr v)
       ∧ ((rate v == 0)%Q ↔ Some "DEADLOCK" ∉ Status <$> scenario_rows).
Proof.
  assert (scenario_rows ≠ []) as Hne by discriminate.
  assert (Z.of_nat (length scenario_rows) < 2 ^ 53) as Hsize by reflexivity.
  split_and!; [exact Hne|exact Hsize|].
  destruct (rate_extremes scenario_rows (mkProc ∅ [] []) Hne Hsize)
    as (v & Hv & _ & Hzero).
  by exists v.
Defined.

(** Neither chart has an empty bar: every bar stands for at least one Run,
    and no bar is higher than the number of rows. *)
Theorem bars_are_never_empty `{Env} (df : DataFrame) (p : Proc) :
  ∃ status blocked,
    fs (plot_status df p).1 !! status_plot_path = Some (ImageFile status)
    ∧ fs (plot_blocked df p).1 !! blocked_plot_path = Some (ImageFile blocked)
    ∧ Forall (λ b, 1 ≤ Plt.bar_height b ≤ Z.of_nat (length df)) (Plt.bars status)
    ∧ Forall (λ b, 1 ≤ Plt.bar_height b ≤ Z.of_nat (length df)) (Plt.bars blocked).
Proof.
  exists (status_figure df), (blocked_figure df).
  rewrite plot_status_run, plot_blocked_run.
  set (counts := Pandas.value_counts (Status <$> df)).
  set (counts' :=
         Pandas.sort_index (Pandas.value_counts (Some <$> (BlockedThreads <$> df)))).
  assert (Plt.bars (status_figure df)
          = imap (λ i kv, Plt.mkBar (Z.of_nat i) kv.2) counts) as Hbars.
  { pose proof (bars_in_series_order id counts) as Hb.
    rewrite list_fmap_id in Hb. apply Hb. apply NoDup_index_value_counts. }
  assert (Plt.bars (blocked_figure df)
          = imap (λ i kv, Plt.mkBar (Z.of_nat i) kv.2) counts') as Hbars'.
  { apply (bars_in_series_order Py.str counts').
    apply (NoDup_fmap_2 (pretty : Z → string)).
    unfold Pandas.index, counts'. rewrite sort_index_Permutation.
    apply NoDup_index_value_counts. }
  split_and!.
  - simpl. by rewrite lookup_insert_eq.
  - simpl. by rewrite lookup_insert_eq.
  - rewrite Hbars. apply Forall_forall. intros b Hb.
    apply list_elem_of_lookup in Hb as [i Hi].
    rewrite list_lookup_imap in Hi.
    destruct (counts !! i) as [[k n]|] eqn:Hc; [|done]. injection Hi as <-. simpl.
    apply list_elem_of_lookup_2, value_counts_elem_of in Hc as [Hin ->].
    apply occurrences_pos in Hin.
    pose proof (occurrences_le_length k (Status <$> df)) as Hle.
    rewrite length_fmap in Hle. lia.
  - rewrite Hbars'. apply Forall_forall. intros b Hb.
    apply list_elem_of_lookup in Hb as [i Hi].
    rewrite list_lookup_imap in Hi.
    destruct (counts' !! i) as [[k n]|] eqn:Hc; [|done]. injection Hi as <-. simpl.
    apply list_elem_of_lookup_2 in Hc. unfold counts' in Hc.
    rewrite sort_index_Permutation in Hc.
    apply value_counts_elem_of in Hc as [Hin ->].
    apply occurrences_pos in Hin.
    pose proof (occurrences_le_length k (Some <$> (BlockedThreads <$> df))) as Hle.
    rewrite !length_fmap in Hle. lia.
Qed.
